(** * QuizMaster Pro: the quiz-session engine of [src/App.tsx]

    A shallow embedding of the student quiz session of the [App] component:
    the React state it keeps ([useState] cells), the handlers that update it
    ([loadActiveQuiz], [handleOptionClick], [handleNextQuestion],
    [handleSubmitQuiz]), the two timer effects and the render guards of the
    [STUDENT_LOBBY] view.

    Conventions of the embedding.
    - A handler is a closure over the render that created it.  What it READS
      from a [useState] cell it reads from that render (argument [r]); what it
      WRITES through a setter lands on the current state (argument [s]).
      Handlers bound in the JSX, the body of a timer effect (its dependency
      list covers every cell it reads) and [submitRef.current] (refreshed
      after every render, lines 71-76) belong to the latest render, so there
      [r] is the current state.  Only the [setTimeout] of [handleOptionClick]
      keeps an older closure alive.
    - In [step] and [run] one handler invocation is one atomic step: the
      state it leaves is the one the next invocation observes (React commits
      the queued setter calls and re-renders in between).  Timer callbacks
      that come due together run before React commits again: they share the
      closures and the ref of the last committed render while their setter
      calls queue up.  That case is [fireIn] and [commitWindow].
    - [Date.now()] and the answers of [MockBackend] are inputs of the step.
    - JavaScript numbers are integers here ([Z]); list indices are [nat]. *)

From stdpp Require Import gmap strings list.
From stdpp Require Import pretty.

Local Open Scope Z_scope.

(** ** Data model ([./types], as used by [App.tsx]) *)

Inductive UserRole := STUDENT | ADMIN.

Record User := {
  user_id : string;
  user_name : string;
  user_role : UserRole }.

Record QOption := {
  option_id : string;
  option_text : string }.

(** [options] is read with [?.], so it may be missing. *)
Record Question := {
  question_id : string;
  question_text : string;
  question_options : option (list QOption);
  correctAnswer : string }.

Inductive QuizStatus := DRAFT | PUBLISHED.

(** The fields are those of the object handed to [MockBackend.createQuiz]
    (lines 587-594); [publishedAt] is tested for truthiness at line 144. *)
Record Quiz := {
  quiz_id : string;
  quiz_title : string;
  durationMinutes : Z;
  questionIds : list string;
  quiz_status : QuizStatus;
  publishedAt : option Z }.

Record AnsweredPair := {
  questionId : string;
  value : string }.

Record Submission := {
  sub_quizId : string;
  sub_studentId : string;
  sub_answers : list AnsweredPair;
  sub_score : nat;
  sub_totalQuestions : nat;
  submittedAt : Z }.

Record Feedback := {
  selectedId : string;
  isCorrect : bool }.

Inductive View :=
  | LOGIN_SELECT | STUDENT_LOGIN | STUDENT_REGISTER | REGISTRATION_SUCCESS
  | ADMIN_LOGIN | STUDENT_LOBBY | ADMIN_DASHBOARD.

(** The [useState] cells of lines 37-63 that the quiz session reads or
    writes.  The form fields and the admin tables are left out: no function
    below touches them. *)
Record State := {
  view : View;
  user : option User;
  activeQuiz : option Quiz;
  questions : list Question;
  currentQIndex : nat;
  answers : gmap string string;
  globalTimeLeft : Z;
  questionTimeLeft : Z;
  feedback : option Feedback;
  submitted : bool;
  result : option nat }.

#[global] Instance UserRole_eq_dec : EqDecision UserRole.
Proof. solve_decision. Defined.
#[global] Instance View_eq_dec : EqDecision View.
Proof. solve_decision. Defined.

(** The initial values of the cells. *)
Definition initialState : State :=
  {| view := LOGIN_SELECT; user := None; activeQuiz := None; questions := [];
     currentQIndex := 0; answers := ∅; globalTimeLeft := 0;
     questionTimeLeft := 60; feedback := None; submitted := false;
     result := None |}.

(** ** Setters *)

Definition setView (v : View) (s : State) : State :=
  {| view := v; user := user s; activeQuiz := activeQuiz s;
     questions := questions s; currentQIndex := currentQIndex s;
     answers := answers s; globalTimeLeft := globalTimeLeft s;
     questionTimeLeft := questionTimeLeft s; feedback := feedback s;
     submitted := submitted s; result := result s |}.

Definition setUser (u : option User) (s : State) : State :=
  {| view := view s; user := u; activeQuiz := activeQuiz s;
     questions := questions s; currentQIndex := currentQIndex s;
     answers := answers s; globalTimeLeft := globalTimeLeft s;
     questionTimeLeft := questionTimeLeft s; feedback := feedback s;
     submitted := submitted s; result := result s |}.

Definition setActiveQuiz (q : option Quiz) (s : State) : State :=
  {| view := view s; user := user s; activeQuiz := q;
     questions := questions s; currentQIndex := currentQIndex s;
     answers := answers s; globalTimeLeft := globalTimeLeft s;
     questionTimeLeft := questionTimeLeft s; feedback := feedback s;
     submitted := submitted s; result := result s |}.

Definition setQuestions (qs : list Question) (s : State) : State :=
  {| view := view s; user := user s; activeQuiz := activeQuiz s;
     questions := qs; currentQIndex := currentQIndex s;
     answers := answers s; globalTimeLeft := globalTimeLeft s;
     questionTimeLeft := questionTimeLeft s; feedback := feedback s;
     submitted := submitted s; result := result s |}.

Definition setCurrentQIndex (i : nat) (s : State) : State :=
  {| view := view s; user := user s; activeQuiz := activeQuiz s;
     questions := questions s; currentQIndex := i;
     answers := answers s; globalTimeLeft := globalTimeLeft s;
     questionTimeLeft := questionTimeLeft s; feedback := feedback s;
     submitted := submitted s; result := result s |}.

Definition setAnswers (a : gmap string string) (s : State) : State :=
  {| view := view s; user := user s; activeQuiz := activeQuiz s;
     questions := questions s; currentQIndex := currentQIndex s;
     answers := a; globalTimeLeft := globalTimeLeft s;
     questionTimeLeft := questionTimeLeft s; feedback := feedback s;
     submitted := submitted s; result := result s |}.

Definition setGlobalTimeLeft (t : Z) (s : State) : State :=
  {| view := view s; user := user s; activeQuiz := activeQuiz s;
     questions := questions s; currentQIndex := currentQIndex s;
     answers := answers s; globalTimeLeft := t;
     questionTimeLeft := questionTimeLeft s; feedback := feedback s;
     submitted := submitted s; result := result s |}.

Definition setQuestionTimeLeft (t : Z) (s : State) : State :=
  {| view := view s; user := user s; activeQuiz := activeQuiz s;
     questions := questions s; currentQIndex := currentQIndex s;
     answers := answers s; globalTimeLeft := globalTimeLeft s;
     questionTimeLeft := t; feedback := feedback s;
     submitted := submitted s; result := result s |}.

Definition setFeedback (f : option Feedback) (s : State) : State :=
  {| view := view s; user := user s; activeQuiz := activeQuiz s;
     questions := questions s; currentQIndex := currentQIndex s;
     answers := answers s; globalTimeLeft := globalTimeLeft s;
     questionTimeLeft := questionTimeLeft s; feedback := f;
     submitted := submitted s; result := result s |}.

Definition setSubmitted (b : bool) (s : State) : State :=
  {| view := view s; user := user s; activeQuiz := activeQuiz s;
     questions := questions s; currentQIndex := currentQIndex s;
     answers := answers s; globalTimeLeft := globalTimeLeft s;
     questionTimeLeft := questionTimeLeft s; feedback := feedback s;
     submitted := b; result := result s |}.

Definition setResult (n : option nat) (s : State) : State :=
  {| view := view s; user := user s; activeQuiz := activeQuiz s;
     questions := questions s; currentQIndex := currentQIndex s;
     answers := answers s; globalTimeLeft := globalTimeLeft s;
     questionTimeLeft := questionTimeLeft s; feedback := feedback s;
     submitted := submitted s; result := n |}.

(** ** What a handler does besides writing cells *)

Inductive Effect :=
  (** [submitRef.current()] was invoked (lines 105 and 255). *)
  | SubmitSignal
  (** [MockBackend.submitQuiz(submission)] (line 277). *)
  | StoreSubmission (sub : Submission)
  (** [setTimeout(() => handleNextQuestion(), delay)] (lines 242-244); the
      callback is the [handleNextQuestion] of render [r]. *)
  | SetTimeoutNextQuestion (r : State) (delay : Z).

(** How an invocation ends: normally, with the new state and its effects, or
    with the [TypeError] of a property read on [undefined]. *)
Inductive Completion :=
  | Normal (s : State) (out : list Effect)
  | TypeError.

Definition isSubmitSignal (e : Effect) : bool :=
  match e with SubmitSignal => true | _ => false end.

(** The submission records among the effects. *)
Definition records (out : list Effect) : list Submission :=
  omap (λ e, match e with StoreSubmission sub => Some sub | _ => None end) out.

Definition signals (out : list Effect) : nat :=
  length (filter (λ e, isSubmitSignal e = true) out).

(** ** ScoringEngine *)

(** [Object.entries(answers).map(([k, v]) => ({ questionId: k, value: v }))]
    (line 267): one pair per key of the record. *)
Definition answerPairs (a : gmap string string) : list AnsweredPair :=
  (λ kv, {| questionId := kv.1; value := kv.2 |}) <$> map_to_list a.

(** Modelled from the spec: [MockBackend.calculateScore] lives in
    [./services/mockBackend], which is not part of the sources at hand; its
    contract is section 4.1.  This is its "look up an answer by question
    identifier": the first pair of the collection that names the question. *)
Definition lookupAnswer (A : list AnsweredPair) (qid : string)
  : option AnsweredPair :=
  find (λ a, bool_decide (questionId a = qid)) A.

(** Modelled from the spec: the test of [MockBackend.calculateScore] on one
    question, "if present and its chosen option identifier equals the
    question's correct option identifier". *)
Definition answeredCorrectly (A : list AnsweredPair) (q : Question) : bool :=
  match lookupAnswer A (question_id q) with
  | Some a => bool_decide (value a = correctAnswer q)
  | None => false
  end.

(** What one question adds to the score. *)
Definition credit (A : list AnsweredPair) (q : Question) : nat :=
  if answeredCorrectly A q then 1%nat else 0%nat.

(** Modelled from the spec: [MockBackend.calculateScore], absent from the
    sources at hand.  Section 4.1: for each question in [questions], look up
    an answer by question identifier; if present and its chosen option
    identifier equals the question's correct option identifier, increment
    the score. *)
Definition calculateScore (Q : list Question) (A : list AnsweredPair) : nat :=
  fold_left (λ score q, if answeredCorrectly A q then S score else score) Q 0%nat.

(** ** Handlers *)

(** [handleSubmitQuiz] (lines 260-278), closure of render [r]. *)
Definition handleSubmitQuiz (r : State) (now : Z) (s : State)
  : State * list Effect :=
  match user r, activeQuiz r with
  | Some u, Some quiz =>
      if submitted r then (s, [])
      else
        let s1 := setSubmitted true s in
        let submission :=
          {| sub_quizId := quiz_id quiz;
             sub_studentId := user_id u;
             sub_answers := answerPairs (answers r);
             sub_score := 0;
             sub_totalQuestions := length (questions r);
             submittedAt := now |} in
        let score := calculateScore (questions r) (sub_answers submission) in
        let submission :=
          {| sub_quizId := sub_quizId submission;
             sub_studentId := sub_studentId submission;
             sub_answers := sub_answers submission;
             sub_score := score;
             sub_totalQuestions := sub_totalQuestions submission;
             submittedAt := submittedAt submission |} in
        (setResult (Some score) s1, [StoreSubmission submission])
  | _, _ => (s, [])
  end.

(** [submitRef.current()]: the ref holds the [handleSubmitQuiz] of the latest
    render (lines 71-76), which is the state [cur] the running handler
    started from; its setter calls join those already queued ([s]). *)
Definition submitRef_current (cur : State) (now : Z) (s : State)
  : State * list Effect :=
  let '(s', out) := handleSubmitQuiz cur now s in (s', SubmitSignal :: out).

(** [handleNextQuestion] (lines 247-257), closure of render [r], run while
    the current state is [s]. *)
Definition handleNextQuestion (r : State) (now : Z) (s : State)
  : State * list Effect :=
  let s1 := setFeedback None s in
  let s2 := setQuestionTimeLeft 60 s1 in
  if Z.of_nat (currentQIndex r) <? Z.of_nat (length (questions r)) - 1
  then (setCurrentQIndex (currentQIndex s2 + 1)%nat s2, [])
  else submitRef_current s now s2.

(** [handleOptionClick] (lines 229-245), closure of render [r]. *)
Definition handleOptionClick (r : State) (questionId optionId : string)
    (s : State) : Completion :=
  match feedback r with
  | Some _ => Normal s []
  | None =>
      match questions r !! currentQIndex r with
      | None => TypeError
      | Some currentQ =>
          let isCorrect := bool_decide (optionId = correctAnswer currentQ) in
          let s1 := setAnswers (<[questionId := optionId]> (answers s)) s in
          let s2 :=
            setFeedback
              (Some {| selectedId := optionId; isCorrect := isCorrect |}) s1 in
          Normal s2 [SetTimeoutNextQuestion r 1000]
      end
  end.

(** [loadActiveQuiz] (lines 134-158).  [quiz] and [allQs] are what
    [MockBackend.getActiveQuiz()] and [MockBackend.getQuestions()] answer,
    [now] is [Date.now()].  A timestamp is truthy when it is not 0.  The
    function reads no cell, and its two [await]s are taken in one step: the
    state given is the one after its last setter. *)
Definition loadActiveQuiz (now : Z) (quiz : option Quiz)
    (allQs : list Question) (s : State) : State :=
  match quiz with
  | None => s
  | Some q =>
      let s1 := setActiveQuiz (Some q) s in
      let quizQs := take 10 allQs in
      let s2 := setQuestions quizQs s1 in
      match publishedAt q with
      | None => s2
      | Some publishedAt =>
          if bool_decide (publishedAt = 0) then s2
          else
            let s3 := setCurrentQIndex 0 s2 in
            let s4 := setAnswers ∅ s3 in
            let s5 := setFeedback None s4 in
            let s6 := setSubmitted false s5 in
            let s7 := setQuestionTimeLeft 60 s6 in
            let elapsed := (now - publishedAt) / 1000 in
            let remaining := 10 * 60 - elapsed in
            setGlobalTimeLeft (if 0 <? remaining then remaining else 0) s7
      end
  end.

(** The [QUIZ_PUBLISHED] branch of the subscription (lines 79-84). *)
Definition onQuizPublished (now : Z) (quiz : option Quiz)
    (allQs : list Question) (s : State) : State :=
  match user s with
  | Some u =>
      if bool_decide (user_role u = STUDENT)
      then loadActiveQuiz now quiz allQs s
      else s
  | None => s
  end.

(** [handleStudentLogin] (lines 160-170) when [MockBackend.loginStudent]
    answers [u]; when it throws only the error banner changes. *)
Definition handleStudentLogin (u : User) (now : Z) (quiz : option Quiz)
    (allQs : list Question) (s : State) : State :=
  loadActiveQuiz now quiz allQs (setView STUDENT_LOBBY (setUser (Some u) s)).

(** [handleAdminLogin] (lines 200-210) when the login succeeds. *)
Definition handleAdminLogin (u : User) (s : State) : State :=
  setView ADMIN_DASHBOARD (setUser (Some u) s).

(** ** Timers *)

(** Guard of the global timer effect (line 101). *)
Definition globalTimerRunning (s : State) : bool :=
  bool_decide (is_Some (activeQuiz s)) && (0 <? globalTimeLeft s)
  && negb (submitted s) && bool_decide (view s = STUDENT_LOBBY).

(** One firing of the interval of lines 102-110; without an interval nothing
    fires. *)
Definition globalTick (now : Z) (s : State) : State * list Effect :=
  if globalTimerRunning s then
    let prev := globalTimeLeft s in
    if prev <=? 1 then
      let '(s1, out) := submitRef_current s now s in
      (setGlobalTimeLeft 0 s1, out)
    else (setGlobalTimeLeft (prev - 1) s, [])
  else (s, []).

(** Guard of the question timer effect (line 118). *)
Definition questionTimerRunning (s : State) : bool :=
  bool_decide (is_Some (activeQuiz s)) && negb (submitted s)
  && bool_decide (view s = STUDENT_LOBBY)
  && bool_decide (feedback s = None)
  && (0 <? Z.of_nat (length (questions s))).

(** One firing of the interval of lines 120-128. *)
Definition questionTick (now : Z) (s : State) : State * list Effect :=
  if questionTimerRunning s then
    let prev := questionTimeLeft s in
    if prev <=? 1 then
      let '(s1, out) := handleNextQuestion s now s in
      (setQuestionTimeLeft 60 s1, out)
    else (setQuestionTimeLeft (prev - 1) s, [])
  else (s, []).

(** ** What is on screen *)

(** One answer button of the quiz view (lines 537-547). *)
Record OptionButton := {
  btn_option : QOption;
  btn_disabled : bool;
  (** the arguments [onClick] hands to [handleOptionClick] *)
  btn_onClick : string * string }.

(** The tree the component returns, reduced to which screen it is and what
    the quiz view offers to click. *)
Inductive Screen :=
  | LoginSelectScreen
  | StudentRegisterScreen
  | RegistrationSuccessScreen
  | StudentLoginScreen
  | AdminLoginScreen
  (** "Waiting for today's quiz..." (lines 438-460) *)
  | WaitingForQuiz
  (** "Quiz Completed!" with [result] and [questions.length] (463-475) *)
  | QuizCompleted (res : option nat) (total : nat)
  (** "Loading questions..." (478-484) *)
  | LoadingQuestions
  (** "Error: Question not found." (490-492) *)
  | QuestionNotFound
  (** the interactive quiz view (494-554) *)
  | QuizScreen (currentQ : Question) (buttons : list OptionButton)
  | AdminDashboardScreen.

Definition optionButtons (s : State) (currentQ : Question) : list OptionButton :=
  match question_options currentQ with
  | None => []
  | Some opts =>
      (λ opt, {| btn_option := opt;
                 btn_disabled := bool_decide (is_Some (feedback s));
                 btn_onClick := (question_id currentQ, option_id opt) |})
      <$> opts
  end.

(** The chain of [if (view === ...)] of lines 288-643. *)
Definition render (s : State) : Screen :=
  match view s with
  | LOGIN_SELECT => LoginSelectScreen
  | STUDENT_REGISTER => StudentRegisterScreen
  | REGISTRATION_SUCCESS => RegistrationSuccessScreen
  | STUDENT_LOGIN => StudentLoginScreen
  | ADMIN_LOGIN => AdminLoginScreen
  | STUDENT_LOBBY =>
      match activeQuiz s with
      | None => WaitingForQuiz
      | Some _ =>
          if submitted s then QuizCompleted (result s) (length (questions s))
          else if bool_decide (length (questions s) = 0%nat) then LoadingQuestions
          else
            match questions s !! currentQIndex s with
            | None => QuestionNotFound
            | Some currentQ => QuizScreen currentQ (optionButtons s currentQ)
            end
      end
  | ADMIN_DASHBOARD => AdminDashboardScreen
  end.

(** Does the screen offer any answer button that reacts to a click? *)
Definition canAnswer (sc : Screen) : bool :=
  match sc with
  | QuizScreen _ buttons => bool_decide (Exists (λ b, btn_disabled b = false) buttons)
  | _ => false
  end.

(** ** What the user can do *)

(** A click on the [n]-th answer button of the screen.  There is nothing to
    click when the quiz view is not shown or has fewer buttons, and the
    browser drops a click on a disabled button. *)
Definition clickOption (n : nat) (s : State) : Completion :=
  match render s with
  | QuizScreen _ buttons =>
      match buttons !! n with
      | Some b =>
          if btn_disabled b then Normal s []
          else handleOptionClick s (btn_onClick b).1 (btn_onClick b).2 s
      | None => Normal s []
      end
  | _ => Normal s []
  end.

(** The Logout button of the screen, where it has one (lines 456, 471, 567). *)
Definition clickLogout (s : State) : State :=
  match render s with
  | WaitingForQuiz | AdminDashboardScreen =>
      setView LOGIN_SELECT (setUser None s)
  | QuizCompleted _ _ =>
      setActiveQuiz None
        (setSubmitted false (setView LOGIN_SELECT (setUser None s)))
  | _ => s
  end.

(** The buttons that only change the view (lines 295-297, 341, 370, 397, 399,
    430) and the successful registration (line 186). *)
Definition navigates (from to : View) : bool :=
  match from, to with
  | LOGIN_SELECT, (STUDENT_LOGIN | STUDENT_REGISTER | ADMIN_LOGIN) => true
  | STUDENT_REGISTER, (LOGIN_SELECT | REGISTRATION_SUCCESS) => true
  | REGISTRATION_SUCCESS, STUDENT_LOGIN => true
  | STUDENT_LOGIN, (STUDENT_REGISTER | LOGIN_SELECT) => true
  | ADMIN_LOGIN, LOGIN_SELECT => true
  | _, _ => false
  end.

Definition navigate (to : View) (s : State) : State :=
  if navigates (view s) to then setView to s else s.

(** ** The session as a transition system *)

Inductive Event :=
  | Navigate (to : View)
  | StudentLoggedIn (u : User) (now : Z) (quiz : option Quiz) (allQs : list Question)
  | AdminLoggedIn (u : User)
  | Logout
  | QuizPublished (now : Z) (quiz : option Quiz) (allQs : list Question)
  | OptionClicked (n : nat)
  (** the timeout set by [handleOptionClick] under render [r] fires *)
  | FeedbackDelayElapsed (r : State) (now : Z)
  | GlobalTimerFired (now : Z)
  | QuestionTimerFired (now : Z).

Definition step (e : Event) (s : State) : State * list Effect :=
  match e with
  | Navigate to => (navigate to s, [])
  | StudentLoggedIn u now quiz allQs =>
      if bool_decide (view s = STUDENT_LOGIN)
      then (handleStudentLogin u now quiz allQs s, [])
      else (s, [])
  | AdminLoggedIn u =>
      if bool_decide (view s = ADMIN_LOGIN)
      then (handleAdminLogin u s, [])
      else (s, [])
  | Logout => (clickLogout s, [])
  | QuizPublished now quiz allQs => (onQuizPublished now quiz allQs s, [])
  | OptionClicked n =>
      match clickOption n s with
      | Normal s' out => (s', out)
      | TypeError => (s, [])
      end
  | FeedbackDelayElapsed r now => handleNextQuestion r now s
  | GlobalTimerFired now => globalTick now s
  | QuestionTimerFired now => questionTick now s
  end.

Fixpoint run (es : list Event) (s : State) : State * list Effect :=
  match es with
  | [] => (s, [])
  | e :: es' =>
      let '(s1, out1) := step e s in
      let '(s2, out2) := run es' s1 in
      (s2, out1 ++ out2)
  end.

Definition reachable (s : State) : Prop :=
  ∃ es, (run es initialState).1 = s.

(** A transition either keeps the question index and does not clear the
    feedback, or it leaves the question timer at its full budget. *)
Definition keepsQuestionOrRefills (s s' : State) : Prop :=
  (currentQIndex s' = currentQIndex s
   ∧ (feedback s' = feedback s ∨ is_Some (feedback s')))
  ∨ questionTimeLeft s' = 60.

(** ** The specification's words, for comparison *)

(** Section 4.2, Initialization: [remaining = durationSeconds -
    floor((now - publishedAt) / 1000)], clamped to a minimum of 0. *)
Definition spec_initialRemaining (durationSeconds now publishedAt : Z) : Z :=
  Z.max 0 (durationSeconds - (now - publishedAt) / 1000).

(** The duration a quiz declares, in seconds. *)
Definition durationSeconds (quiz : Quiz) : Z := 60 * durationMinutes quiz.

(** ** Sample data *)

Definition abcd : list QOption :=
  [ {| option_id := "a"; option_text := "first" |};
    {| option_id := "b"; option_text := "second" |};
    {| option_id := "c"; option_text := "third" |};
    {| option_id := "d"; option_text := "fourth" |} ].

Definition mkQuestion (qid correct : string) : Question :=
  {| question_id := qid; question_text := "prompt";
     question_options := Some abcd; correctAnswer := correct |}.

Definition tenQuestions : list Question :=
  [ mkQuestion "q1" "b"; mkQuestion "q2" "a"; mkQuestion "q3" "c";
    mkQuestion "q4" "d"; mkQuestion "q5" "a"; mkQuestion "q6" "b";
    mkQuestion "q7" "c"; mkQuestion "q8" "d"; mkQuestion "q9" "a";
    mkQuestion "q10" "b" ].

Definition alice : User :=
  {| user_id := "A01"; user_name := "Alice"; user_role := STUDENT |}.

(** A daily quiz as the admin dashboard publishes it, at time 1000000. *)
Definition dailyQuiz : Quiz :=
  {| quiz_id := "daily-quiz-2026-01-01"; quiz_title := "Daily Quiz";
     durationMinutes := 10; questionIds := question_id <$> tenQuestions;
     quiz_status := PUBLISHED; publishedAt := Some 1000000 |}.

(** The same quiz declaring five minutes. *)
Definition fiveMinuteQuiz : Quiz :=
  {| quiz_id := "daily-quiz-2026-01-01"; quiz_title := "Daily Quiz";
     durationMinutes := 5; questionIds := question_id <$> tenQuestions;
     quiz_status := PUBLISHED; publishedAt := Some 1000000 |}.

(** Alice on the fourth question (index 3) with three earlier answers, the
    fourth not answered, one second left on the question timer. *)
Definition sessionAtIndex3 : State :=
  {| view := STUDENT_LOBBY; user := Some alice; activeQuiz := Some dailyQuiz;
     questions := tenQuestions; currentQIndex := 3;
     answers := <["q1" := "b"]> (<["q2" := "c"]> (<["q3" := "c"]> ∅));
     globalTimeLeft := 400; questionTimeLeft := 1; feedback := None;
     submitted := false; result := None |}.

(** Alice on the last question with one second left on both timers. *)
Definition sessionAtLast : State :=
  setGlobalTimeLeft 1 (setCurrentQIndex 9 sessionAtIndex3).

(** Alice right after choosing "d" on the fourth question. *)
Definition sessionShowingFeedback : State :=
  setFeedback (Some {| selectedId := "d"; isCorrect := true |})
    (setAnswers (<["q4" := "d"]> (answers sessionAtIndex3)) sessionAtIndex3).

(** A one-question session whose correct-answer string, "z", is on none of
    its four buttons. *)
Definition sessionOddKey : State :=
  setCurrentQIndex 0 (setQuestions [mkQuestion "q1" "z"] sessionAtIndex3).

(** A session whose question list failed to load, and one whose index ran
    past its list. *)
Definition sessionNoQuestions : State := setQuestions [] sessionAtIndex3.

Definition sessionIndexOutOfRange : State :=
  setCurrentQIndex 12 sessionAtIndex3.

(** The two-question quiz of the end-to-end scenarios (correct options "b"
    and "a"), and Alice's session from the login screen on. *)
Definition twoQuestions : list Question :=
  [mkQuestion "q1" "b"; mkQuestion "q2" "a"].

Definition twoQuestionSession : State :=
  (run [Navigate STUDENT_LOGIN;
        StudentLoggedIn alice 1000000 (Some dailyQuiz) twoQuestions]
     initialState).1.

(** She clicks button [n] and the feedback delay elapses. *)
Definition answerAndWait (n : nat) (now : Z) (s : State) : State * list Effect :=
  run [OptionClicked n; FeedbackDelayElapsed s now] s.

(** [n] firings of a timer, at arbitrary instants. *)
Definition seq_Z_times (n : nat) : list Z := Z.of_nat <$> seq 0 n.

(** ** The attempt, the dashboard and the admin table *)

(** What can happen while a participant sits on the quiz view, short of a
    reload of the quiz: a click on an answer, the end of the feedback delay
    and the firings of the two timers. *)
Definition withinAttempt (e : Event) : bool :=
  match e with
  | OptionClicked _ | FeedbackDelayElapsed _ _
  | GlobalTimerFired _ | QuestionTimerFired _ => true
  | _ => false
  end.

Definition isGlobalTimerFired (e : Event) : bool :=
  match e with GlobalTimerFired _ => true | _ => false end.

(** How often the global timer fires in a run. *)
Definition globalFirings (es : list Event) : nat :=
  length (filter (λ e, isGlobalTimerFired e = true) es).

(** An event that arrives the way the application produces it: a quiz that
    is delivered carries a publish timestamp (the dashboard always sets one,
    line 593), and the feedback delay ends while the question it was started
    on is still the current one. *)
Definition timelyEvent (s : State) (e : Event) : Prop :=
  match e with
  | StudentLoggedIn _ _ (Some quiz) _ | QuizPublished _ (Some quiz) _ =>
      ∃ pa, publishedAt quiz = Some pa ∧ pa ≠ 0
  | FeedbackDelayElapsed r _ =>
      currentQIndex r = currentQIndex s
      ∧ length (questions r) = length (questions s)
  | _ => True
  end.

Fixpoint timelyRun (es : list Event) (s : State) : Prop :=
  match es with
  | [] => True
  | e :: es' => timelyEvent s e ∧ timelyRun es' (step e s).1
  end.

(** The current index points into the question list, or the list is empty. *)
Definition indexInRange (s : State) : Prop :=
  questions s = [] ∨ (currentQIndex s < length (questions s))%nat.

(** The quiz the "Publish Daily Quiz" button hands to
    [MockBackend.createQuiz] (lines 578-594).  [isoDate] is
    [new Date().toISOString().split('T')[0]], [localeDate] is
    [new Date().toLocaleDateString()], [now] is [Date.now()] and [allQs] is
    what [MockBackend.getQuestions()] answers. *)
Definition publishDailyQuiz (isoDate localeDate : string) (now : Z)
    (allQs : list Question) : Quiz :=
  let id := "daily-quiz-" +:+ isoDate in
  let dailyQIds := question_id <$> take 10 allQs in
  {| quiz_id := id;
     quiz_title := "Daily Quiz - " +:+ localeDate;
     durationMinutes := 10;
     questionIds := dailyQIds;
     quiz_status := PUBLISHED;
     publishedAt := Some now |}.

(** [getStudentScore] (lines 281-284) over the [submissions] cell of the
    admin dashboard; a count is printed in decimal. *)
Definition getStudentScore (submissions : list Submission) (studentId : string)
  : string :=
  match find (λ s, bool_decide (sub_studentId s = studentId)) submissions with
  | Some sub =>
      pretty (sub_score sub) +:+ "/" +:+ pretty (sub_totalQuestions sub)
  | None => "-"
  end.

(** Alice's session on the completed screen, and her session on the last
    question with half a minute of global time left. *)
Definition sessionCompleted : State :=
  (submitRef_current sessionAtLast 1599000 sessionAtLast).1.

Definition sessionLastHalfMinute : State :=
  setQuestionTimeLeft 60 (setGlobalTimeLeft 30 sessionAtLast).

(** What one step inside an attempt can and cannot change. *)
Definition attemptStep (s s' : State) (out : list Effect) : Prop :=
  view s' = view s ∧ user s' = user s ∧ activeQuiz s' = activeQuiz s
  ∧ questions s' = questions s
  ∧ (submitted s = true →
       submitted s' = true ∧ answers s' = answers s ∧ result s' = result s
       ∧ records out = [])
  ∧ (records out = [] ∧ submitted s' = submitted s
     ∨ submitted s = false ∧ submitted s' = true
       ∧ length (records out) = 1%nat).

(** The timers stay inside their dials. *)
Definition timersInRange (s : State) : Prop :=
  0 ≤ globalTimeLeft s ∧ 1 ≤ questionTimeLeft s ≤ 60.

(** Somebody is logged in exactly on the two views behind a login. *)
Definition loggedInIffBehindLogin (s : State) : Prop :=
  is_Some (user s) ↔ (view s = STUDENT_LOBBY ∨ view s = ADMIN_DASHBOARD).

(** Every recorded answer names a question of the list and one of the
    options that question offers. *)
Definition answersOnOffer (s : State) : Prop :=
  ∀ qid v, answers s !! qid = Some v →
    ∃ q opts o, q ∈ questions s ∧ question_id q = qid
                ∧ question_options q = Some opts
                ∧ o ∈ opts ∧ option_id o = v.

(** ** Callbacks between two commits *)

(** The callbacks of [setInterval] and [setTimeout]. *)
Definition isTimerCallback (e : Event) : bool :=
  match e with
  | FeedbackDelayElapsed _ _ | GlobalTimerFired _ | QuestionTimerFired _ => true
  | _ => false
  end.

(** [handleNextQuestion] of render [r] while the last committed render is
    [cur] and [s] is the pending state: [submitRef.current] is still the
    [handleSubmitQuiz] of [cur] (the ref is only refreshed in the effect of
    lines 74-76, after a commit). *)
Definition handleNextQuestionIn (r cur : State) (now : Z) (s : State)
  : State * list Effect :=
  let s1 := setFeedback None s in
  let s2 := setQuestionTimeLeft 60 s1 in
  if Z.of_nat (currentQIndex r) <? Z.of_nat (length (questions r)) - 1
  then (setCurrentQIndex (currentQIndex s2 + 1)%nat s2, [])
  else submitRef_current cur now s2.

(** One timer callback run while the last committed render is [cur] and the
    pending state is [s].  An interval exists when its effect guard held at
    [cur]; an updater ([prev => ...]) reads the pending cell. *)
Definition fireIn (cur : State) (e : Event) (s : State) : State * list Effect :=
  match e with
  | GlobalTimerFired now =>
      if globalTimerRunning cur then
        let prev := globalTimeLeft s in
        if prev <=? 1 then
          let '(s1, out) := submitRef_current cur now s in
          (setGlobalTimeLeft 0 s1, out)
        else (setGlobalTimeLeft (prev - 1) s, [])
      else (s, [])
  | QuestionTimerFired now =>
      if questionTimerRunning cur then
        let prev := questionTimeLeft s in
        if prev <=? 1 then
          let '(s1, out) := handleNextQuestionIn cur cur now s in
          (setQuestionTimeLeft 60 s1, out)
        else (setQuestionTimeLeft (prev - 1) s, [])
      else (s, [])
  | FeedbackDelayElapsed r now => handleNextQuestionIn r cur now s
  | _ => (s, [])
  end.

Fixpoint fireAll (cur : State) (es : list Event) (s : State)
  : State * list Effect :=
  match es with
  | [] => (s, [])
  | e :: es' =>
      let '(s1, out1) := fireIn cur e s in
      let '(s2, out2) := fireAll cur es' s1 in
      (s2, out1 ++ out2)
  end.

(** The callbacks [es] come due together under the committed render [cur];
    the state is what React commits afterwards. *)
Definition commitWindow (es : list Event) (cur : State) : State * list Effect :=
  fireAll cur es cur.

Fixpoint runWindows (ws : list (list Event)) (s : State)
  : State * list Effect :=
  match ws with
  | [] => (s, [])
  | es :: ws' =>
      let '(s1, out1) := commitWindow es s in
      let '(s2, out2) := runWindows ws' s1 in
      (s2, out1 ++ out2)
  end.

(** The guard of [handleSubmitQuiz] (line 261) lets the render through. *)
Definition passesSubmitGuard (cur : State) : bool :=
  bool_decide (is_Some (user cur)) && bool_decide (is_Some (activeQuiz cur))
  && negb (submitted cur).

(** Alice right after logging in to the ten-question quiz, and where she
    stands after this: she answers the first question, the quiz is published
    again over a bank of one question within the feedback delay, and the
    delay ends. *)
Definition tenQuestionSession : State :=
  (run [Navigate STUDENT_LOGIN;
        StudentLoggedIn alice 1000000 (Some dailyQuiz) tenQuestions]
     initialState).1.

Definition sessionStrayIndex : State :=
  (run [Navigate STUDENT_LOGIN;
        StudentLoggedIn alice 1000000 (Some dailyQuiz) tenQuestions;
        OptionClicked 1;
        QuizPublished 1000400 (Some dailyQuiz) [mkQuestion "q1" "b"];
        FeedbackDelayElapsed tenQuestionSession 1001000]
     initialState).1.

(** Records, signals and the pending [submitted] flag of a state and its
    effects, as one callback or a whole window leaves them. *)
Definition windowStep (cur s s' : State) (out : list Effect) : Prop :=
  length (records out)
  = (if passesSubmitGuard cur then signals out else 0)%nat
  ∧ (submitted s = true → submitted s' = true)
  ∧ (records out ≠ [] → submitted s' = true).

(** * Properties *)

(** ** Scoring *)

Section Scoring.
Implicit Types (Q : list Question) (A : list AnsweredPair) (q : Question).

Lemma score_fold_acc A Q (n : nat) :
  fold_left (λ score q, if answeredCorrectly A q then S score else score) Q n
  = (n + calculateScore Q A)%nat.
Proof.
  unfold calculateScore. revert n.
  induction Q as [|q Q IH]; intros n; simpl; [lia|].
  rewrite IH, (IH (if answeredCorrectly A q then 1%nat else 0%nat)).
  destruct (answeredCorrectly A q); lia.
Qed.

Lemma calculateScore_cons A q Q :
  calculateScore (q :: Q) A = (credit A q + calculateScore Q A)%nat.
Proof.
  unfold calculateScore at 1, credit. simpl. rewrite score_fold_acc.
  destruct (answeredCorrectly A q); lia.
Qed.

Lemma calculateScore_app A Q1 Q2 :
  calculateScore (Q1 ++ Q2) A
  = (calculateScore Q1 A + calculateScore Q2 A)%nat.
Proof.
  induction Q1 as [|q Q1 IH]; [reflexivity|].
  simpl. rewrite !calculateScore_cons, IH. lia.
Qed.

Lemma calculateScore_le A Q : (calculateScore Q A ≤ length Q)%nat.
Proof.
  induction Q as [|q Q IH]; [reflexivity|].
  rewrite calculateScore_cons. unfold credit. simpl.
  destruct (answeredCorrectly A q); lia.
Qed.

(** The score only depends on what [lookupAnswer] finds for the questions
    of the list. *)
Lemma calculateScore_ext A A' Q :
  (∀ q, q ∈ Q → lookupAnswer A (question_id q) = lookupAnswer A' (question_id q)) →
  calculateScore Q A = calculateScore Q A'.
Proof.
  induction Q as [|q Q IH]; intros Hext; [reflexivity|].
  rewrite !calculateScore_cons, IH.
  - unfold credit, answeredCorrectly. rewrite Hext; [done|left].
  - intros q' Hq'. apply Hext. by right.
Qed.

Lemma lookupAnswer_cons a A qid :
  lookupAnswer (a :: A) qid
  = if bool_decide (questionId a = qid) then Some a else lookupAnswer A qid.
Proof. reflexivity. Qed.

Lemma lookupAnswer_None A qid :
  lookupAnswer A qid = None ↔ qid ∉ questionId <$> A.
Proof.
  induction A as [|a A IH].
  - split; [intros _; apply not_elem_of_nil | done].
  - rewrite lookupAnswer_cons, fmap_cons, not_elem_of_cons.
    case_bool_decide as Ha.
    + split; [done | by intros [Hne _]].
    + rewrite IH. split; [by intros ? | by intros [_ ?]].
Qed.

Lemma lookupAnswer_Some_elem A qid a :
  lookupAnswer A qid = Some a → a ∈ A ∧ questionId a = qid.
Proof.
  induction A as [|b A IH]; [done|].
  rewrite lookupAnswer_cons. case_bool_decide as Hb.
  - intros [= ->]. split; [left | done].
  - intros [Hin Hid]%IH. split; [by right | done].
Qed.

(** With one pair per question identifier the lookup finds THE pair. *)
Lemma lookupAnswer_NoDup A qid a :
  NoDup (questionId <$> A) → a ∈ A → questionId a = qid →
  lookupAnswer A qid = Some a.
Proof.
  induction A as [|b A IH]; [by intros _ ?%elem_of_nil|].
  rewrite fmap_cons, NoDup_cons. intros [Hb Hnd] Hin Hid.
  rewrite lookupAnswer_cons. apply elem_of_cons in Hin as [->|Hin].
  - by rewrite bool_decide_eq_true_2.
  - rewrite bool_decide_eq_false_2; [by apply IH|].
    intros Heq. apply Hb. rewrite Heq, <- Hid.
    by apply list_elem_of_fmap_2.
Qed.

Lemma lookupAnswer_Permutation A A' qid :
  NoDup (questionId <$> A) → A ≡ₚ A' →
  lookupAnswer A' qid = lookupAnswer A qid.
Proof.
  intros Hnd Hp.
  assert (NoDup (questionId <$> A')) as Hnd' by by rewrite <- Hp.
  destruct (lookupAnswer A qid) as [a|] eqn:HA.
  - apply lookupAnswer_Some_elem in HA as [Hin Hid].
    apply lookupAnswer_NoDup; [done| by rewrite <- Hp |done].
  - apply lookupAnswer_None. apply lookupAnswer_None in HA.
    by rewrite <- Hp.
Qed.

Lemma lookupAnswer_filter (P : AnsweredPair → bool) A qid :
  (∀ a, questionId a = qid → P a = true) →
  lookupAnswer (List.filter P A) qid = lookupAnswer A qid.
Proof.
  intros HP. induction A as [|a A IH]; [reflexivity|].
  cbn [List.filter]. rewrite lookupAnswer_cons. destruct (P a) eqn:HPa.
  - rewrite lookupAnswer_cons. by rewrite IH.
  - rewrite IH. rewrite bool_decide_eq_false_2; [done|].
    intros Heq. apply HP in Heq. congruence.
Qed.

(** With two pairs for one question the first one listed decides, which is
    why the order of a collection only drops out when identifiers are not
    repeated. *)
Remark lookupAnswer_first_of_duplicates :
  calculateScore [mkQuestion "q1" "b"]
    [ {| questionId := "q1"; value := "b" |};
      {| questionId := "q1"; value := "a" |} ] = 1%nat
  ∧ calculateScore [mkQuestion "q1" "b"]
      [ {| questionId := "q1"; value := "a" |};
        {| questionId := "q1"; value := "b" |} ] = 0%nat.
Proof. split; reflexivity. Qed.

(** The pairs built from the answer record: one per key. *)
Lemma answerPairs_NoDup (m : gmap string string) :
  NoDup (questionId <$> answerPairs m).
Proof.
  unfold answerPairs. rewrite <- list_fmap_compose.
  apply (NoDup_fst_map_to_list m).
Qed.

Lemma elem_of_answerPairs (m : gmap string string) a :
  a ∈ answerPairs m ↔ m !! questionId a = Some (value a).
Proof.
  unfold answerPairs. rewrite list_elem_of_fmap. split.
  - intros [[k v] [-> Hkv]]. simpl. by apply elem_of_map_to_list.
  - intros Hm. exists (questionId a, value a). split; [by destruct a|].
    by apply elem_of_map_to_list.
Qed.

Lemma lookupAnswer_answerPairs (m : gmap string string) qid :
  lookupAnswer (answerPairs m) qid
  = (λ v, {| questionId := qid; value := v |}) <$> m !! qid.
Proof.
  destruct (m !! qid) as [v|] eqn:Hm; simpl.
  - apply lookupAnswer_NoDup; [apply answerPairs_NoDup| |done].
    by apply elem_of_answerPairs.
  - apply lookupAnswer_None. intros [a [Hid Ha]]%list_elem_of_fmap.
    apply elem_of_answerPairs in Ha. congruence.
Qed.

(** A question earns its point exactly when the record maps its identifier
    to its correct option. *)
Lemma answeredCorrectly_answerPairs (m : gmap string string) q :
  answeredCorrectly (answerPairs m) q
  = bool_decide (m !! question_id q = Some (correctAnswer q)).
Proof.
  unfold answeredCorrectly. rewrite lookupAnswer_answerPairs.
  destruct (m !! question_id q) as [v|]; simpl.
  - apply bool_decide_ext. naive_solver.
  - reflexivity.
Qed.
End Scoring.

(** C8. For every ordered question list [Q] and every collection of answered
    pairs [A]: the score lies between 0 and [length Q]; the score of the
    empty collection is 0; a question without a pair earns nothing (the
    function is total, there is no exception); pairs whose question
    identifier is not in [Q] do not change the score; and, for a collection
    holding one pair per question identifier (the shape a submission has),
    every reordering of it scores the same. *)
Theorem calculateScore_contract (Q : list Question) (A : list AnsweredPair) :
  (0 ≤ calculateScore Q A ≤ length Q)%nat
  ∧ calculateScore Q [] = 0%nat
  ∧ (∀ q, lookupAnswer A (question_id q) = None → credit A q = 0%nat)
  ∧ (∀ Q1 q Q2, Q = Q1 ++ q :: Q2 →
       lookupAnswer A (question_id q) = None →
       calculateScore Q A = calculateScore (Q1 ++ Q2) A)
  ∧ calculateScore Q
      (List.filter (λ a, bool_decide (questionId a ∈ question_id <$> Q)) A)
    = calculateScore Q A
  ∧ (∀ A', NoDup (questionId <$> A) → A ≡ₚ A' →
       calculateScore Q A' = calculateScore Q A).
Proof.
  split; [split; [lia | apply calculateScore_le]|].
  split.
  { clear A. induction Q as [|q Q IH]; [reflexivity|].
    by rewrite calculateScore_cons, IH. }
  split.
  { intros q Hq. unfold credit, answeredCorrectly. by rewrite Hq. }
  split.
  { intros Q1 q Q2 -> Hq.
    rewrite !calculateScore_app, calculateScore_cons.
    unfold credit, answeredCorrectly. rewrite Hq. lia. }
  split.
  { apply calculateScore_ext. intros q Hq. apply lookupAnswer_filter.
    intros a Ha. apply bool_decide_eq_true_2. rewrite Ha.
    by apply list_elem_of_fmap_2. }
  intros A' Hnd Hp. apply calculateScore_ext. intros q _.
  by apply lookupAnswer_Permutation.
Qed.

Lemma calculateScore_contract_witness :
  calculateScore tenQuestions
    [ {| questionId := "q2"; value := "a" |};
      {| questionId := "q1"; value := "b" |} ]
  = calculateScore tenQuestions
      [ {| questionId := "q1"; value := "b" |};
        {| questionId := "q2"; value := "a" |} ]
  ∧ calculateScore (mkQuestion "q1" "b" :: tenQuestions) [] = 0%nat.
Proof.
  split.
  - destruct (calculateScore_contract tenQuestions
                [ {| questionId := "q1"; value := "b" |};
                  {| questionId := "q2"; value := "a" |} ])
      as (_ & _ & _ & _ & _ & Horder).
    apply Horder.
    + apply (bool_decide_unpack _). vm_compute. exact I.
    + apply Permutation_swap.
  - destruct (calculateScore_contract (mkQuestion "q1" "b" :: tenQuestions) [])
      as (_ & Hempty & _).
    exact Hempty.
Defined.

(** ** Finalize *)

Section Finalize.
Implicit Types (s r : State) (now : Z).

Lemma handleSubmitQuiz_guard r now s :
  user r = None ∨ activeQuiz r = None ∨ submitted r = true →
  handleSubmitQuiz r now s = (s, []).
Proof.
  unfold handleSubmitQuiz. intros [Hu|[Hq|Hs]].
  - by rewrite Hu.
  - rewrite Hq. by destruct (user r).
  - rewrite Hs. by destruct (user r), (activeQuiz r).
Qed.

Lemma handleSubmitQuiz_live r now s u quiz :
  user r = Some u → activeQuiz r = Some quiz → submitted r = false →
  handleSubmitQuiz r now s
  = (setResult (Some (calculateScore (questions r) (answerPairs (answers r))))
       (setSubmitted true s),
     [StoreSubmission
        {| sub_quizId := quiz_id quiz; sub_studentId := user_id u;
           sub_answers := answerPairs (answers r);
           sub_score := calculateScore (questions r) (answerPairs (answers r));
           sub_totalQuestions := length (questions r);
           submittedAt := now |}]).
Proof. unfold handleSubmitQuiz. by intros -> -> ->. Qed.

(** What [handleSubmitQuiz] leaves alone. *)
Lemma handleSubmitQuiz_frame r now s :
  let s' := (handleSubmitQuiz r now s).1 in
  view s' = view s ∧ user s' = user s ∧ activeQuiz s' = activeQuiz s
  ∧ questions s' = questions s ∧ currentQIndex s' = currentQIndex s
  ∧ answers s' = answers s ∧ globalTimeLeft s' = globalTimeLeft s
  ∧ questionTimeLeft s' = questionTimeLeft s ∧ feedback s' = feedback s.
Proof.
  unfold handleSubmitQuiz.
  destruct (user r), (activeQuiz r), (submitted r); simpl; done.
Qed.

Lemma signals_submitRef_current cur now s :
  signals (submitRef_current cur now s).2 = 1%nat.
Proof.
  unfold submitRef_current, handleSubmitQuiz.
  destruct (user cur), (activeQuiz cur), (submitted cur); reflexivity.
Qed.

(** The score of the answer record: the questions whose identifier the
    record maps to their correct option, in whatever order
    [Object.entries] lists the record. *)
Lemma calculateScore_answerPairs (Q : list Question) (m : gmap string string) :
  calculateScore Q (answerPairs m)
  = length (filter (λ q, m !! question_id q = Some (correctAnswer q)) Q).
Proof.
  induction Q as [|q Q IH]; [reflexivity|].
  rewrite calculateScore_cons, IH, filter_cons. unfold credit.
  rewrite answeredCorrectly_answerPairs.
  case_bool_decide; by case_decide.
Qed.

(** The record that is stored carries the score that is displayed, and the
    score never exceeds the number of questions. *)
Lemma stored_submission_score r now s sub :
  StoreSubmission sub ∈ (handleSubmitQuiz r now s).2 →
  (sub_score sub ≤ sub_totalQuestions sub)%nat
  ∧ result (handleSubmitQuiz r now s).1 = Some (sub_score sub)
  ∧ sub_answers sub = answerPairs (answers r)
  ∧ sub_score sub = calculateScore (questions r) (sub_answers sub).
Proof.
  unfold handleSubmitQuiz.
  destruct (user r), (activeQuiz r), (submitted r); simpl;
    try by intros ?%elem_of_nil.
  intros [= ->]%list_elem_of_singleton. simpl.
  split; [apply calculateScore_le | done].
Qed.

(** The guard reads [submitted] of the render the closure belongs to: the
    same closure invoked again before the next render passes it again. *)
Remark handleSubmitQuiz_same_closure_twice :
  let first := handleSubmitQuiz sessionAtLast 7 sessionAtLast in
  let second := handleSubmitQuiz sessionAtLast 8 first.1 in
  length (records (first.2 ++ second.2)) = 2%nat.
Proof. reflexivity. Qed.

End Finalize.

(** What the guard of line 261 does achieve: once React has committed the
    first run, so that [submitRef.current] is the closure of the state it
    left, a second run changes nothing and stores nothing, and on a session
    that is already submitted a run is a no-op that returns normally (the
    global timer is not even running). *)
Lemma finalize_across_commit (s : State) (now now' : Z) :
  let first := submitRef_current s now s in
  let second := submitRef_current first.1 now' first.1 in
  second.1 = first.1
  ∧ records second.2 = []
  ∧ (length (records (first.2 ++ second.2)) ≤ 1)%nat
  ∧ (submitted s = true →
       first.1 = s ∧ records first.2 = [] ∧ globalTick now s = (s, []))
  ∧ (is_Some (user s) → is_Some (activeQuiz s) → submitted s = false →
       submitted first.1 = true
       ∧ length (records (first.2 ++ second.2)) = 1%nat).
Proof.
  unfold submitRef_current, globalTick, globalTimerRunning, handleSubmitQuiz.
  destruct (user s) as [u|] eqn:Hu, (activeQuiz s) as [quiz|] eqn:Hq,
    (submitted s) eqn:Hs; simpl;
    rewrite ?Hu, ?Hq, ?Hs; simpl;
    repeat split; try done; try lia;
    try (by intros []); try (by intros _ []);
    try (by rewrite ?andb_false_r).
Qed.

Lemma finalize_across_commit_example :
  submitted (submitRef_current sessionAtLast 7 sessionAtLast).1 = true
  ∧ length (records
      ((submitRef_current sessionAtLast 7 sessionAtLast).2
       ++ (submitRef_current
             (submitRef_current sessionAtLast 7 sessionAtLast).1 8
             (submitRef_current sessionAtLast 7 sessionAtLast).1).2)) = 1%nat.
Proof.
  destruct (finalize_across_commit sessionAtLast 7 8) as (_ & _ & _ & _ & Hlive).
  apply Hlive; [by eexists | by eexists | reflexivity].
Defined.

(** Under one render every run of [submitRef.current] passes the guard that
    the first one passed, whatever the setters have queued meanwhile. *)
Lemma submitRef_current_blind_to_pending (cur s : State) (now : Z) :
  passesSubmitGuard cur = true →
  length (records (submitRef_current cur now s).2) = 1%nat
  ∧ submitted (submitRef_current cur now s).1 = true.
Proof.
  unfold passesSubmitGuard, submitRef_current, handleSubmitQuiz.
  rewrite !andb_true_iff, !bool_decide_eq_true, negb_true_iff.
  intros [[[u ->] [quiz ->]] ->]. done.
Qed.

(** C1 (the code departs from the claim).  Alice is on the last question
    with one second left on both timers.  [submitRef.current()] runs twice
    before React renders again, as when the global interval and the question
    interval come due together: both runs are the [handleSubmitQuiz] of the
    same render, both read [submitted = false] there although the first has
    already called [setSubmitted(true)], and each stores a record.  Two
    records for one quiz and one participant, where the claim has exactly
    one and the second run a no-op. *)
Theorem finalize_twice_within_one_render :
  let first := submitRef_current sessionAtLast 7 sessionAtLast in
  let second := submitRef_current sessionAtLast 8 first.1 in
  submitted sessionAtLast = false
  ∧ submitted first.1 = true
  ∧ length (records first.2) = 1%nat
  ∧ length (records second.2) = 1%nat
  ∧ length (records (first.2 ++ second.2)) = 2%nat
  ∧ sub_quizId <$> records (first.2 ++ second.2)
    = ["daily-quiz-2026-01-01"; "daily-quiz-2026-01-01"]
  ∧ sub_studentId <$> records (first.2 ++ second.2) = ["A01"; "A01"].
Proof. cbv zeta. repeat split. Qed.

(** ** The global timer *)

Section GlobalTimer.
Implicit Types (s : State) (now : Z) (nows : list Z).

Lemma globalTimerRunning_true s :
  globalTimerRunning s = true ↔
  is_Some (activeQuiz s) ∧ 0 < globalTimeLeft s ∧ submitted s = false
  ∧ view s = STUDENT_LOBBY.
Proof.
  unfold globalTimerRunning.
  rewrite !andb_true_iff, !bool_decide_eq_true, negb_true_iff, Z.ltb_lt.
  tauto.
Qed.

Lemma globalTick_stopped now s :
  globalTimerRunning s = false → globalTick now s = (s, []).
Proof. unfold globalTick. by intros ->. Qed.

Lemma globalTicks_stopped nows s :
  globalTimerRunning s = false →
  run (GlobalTimerFired <$> nows) s = (s, []).
Proof.
  intros Hs. induction nows as [|now nows IH]; [reflexivity|].
  rewrite fmap_cons. cbn [run step]. by rewrite globalTick_stopped, IH.
Qed.

Lemma globalTick_decrement now s :
  globalTimerRunning s = true → 1 < globalTimeLeft s →
  globalTick now s = (setGlobalTimeLeft (globalTimeLeft s - 1) s, []).
Proof.
  intros Hr Ht. unfold globalTick. rewrite Hr.
  by rewrite (proj2 (Z.leb_gt _ _) Ht).
Qed.

Lemma globalTick_expire now s :
  globalTimerRunning s = true → globalTimeLeft s ≤ 1 →
  let res := globalTick now s in
  res.1 = setGlobalTimeLeft 0 (handleSubmitQuiz s now s).1
  ∧ res.2 = SubmitSignal :: (handleSubmitQuiz s now s).2
  ∧ globalTimerRunning res.1 = false.
Proof.
  intros Hr Ht. unfold globalTick. rewrite Hr.
  rewrite (proj2 (Z.leb_le _ _) Ht). unfold submitRef_current.
  destruct (handleSubmitQuiz s now s) as [s1 out]. simpl.
  repeat split. unfold globalTimerRunning. simpl.
  by rewrite andb_false_r.
Qed.

Lemma signals_auto_submit s now :
  signals (SubmitSignal :: (handleSubmitQuiz s now s).2) = 1%nat.
Proof.
  pose proof (signals_submitRef_current s now s) as Hsig.
  unfold submitRef_current in Hsig.
  by destruct (handleSubmitQuiz s now s).
Qed.

End GlobalTimer.

(** C6. Expiry of the global timer.  While the timer runs, a firing that
    would take the remaining time to 0 or below leaves it at exactly 0, sends
    exactly one auto-submit signal and stops the timer: every later firing is
    a no-op.  Over any run of firings the remaining time is the start value
    minus the number of firings, clamped to 0, and the signal is sent once if
    the run reaches expiry and not at all otherwise. *)
Theorem globalTimer_expiry (s : State) (now : Z) (nows : list Z) :
  globalTimerRunning s = true →
  (globalTimeLeft s - 1 ≤ 0 →
     let res := globalTick now s in
     globalTimeLeft res.1 = 0 ∧ signals res.2 = 1%nat
     ∧ globalTimerRunning res.1 = false
     ∧ run (GlobalTimerFired <$> nows) res.1 = (res.1, []))
  ∧ (let res := run (GlobalTimerFired <$> nows) s in
     globalTimeLeft res.1 = Z.max 0 (globalTimeLeft s - Z.of_nat (length nows))
     ∧ signals res.2
       = (if bool_decide (globalTimeLeft s ≤ Z.of_nat (length nows))
          then 1%nat else 0%nat)
     ∧ (globalTimeLeft s ≤ Z.of_nat (length nows) →
          globalTimerRunning res.1 = false
          ∧ ∀ now', globalTick now' res.1 = (res.1, []))).
Proof.
  intros Hrun. split.
  - intros Ht. assert (globalTimeLeft s ≤ 1) as Ht1 by lia.
    destruct (globalTick_expire now s Hrun Ht1) as (H1 & H2 & H3).
    cbv zeta. rewrite H2. repeat split.
    + by rewrite H1.
    + apply signals_auto_submit.
    + exact H3.
    + by apply globalTicks_stopped.
  - revert s Hrun. induction nows as [|n0 nows IH]; intros s Hrun.
    + apply globalTimerRunning_true in Hrun as (_ & Hpos & _).
      simpl. rewrite bool_decide_eq_false_2 by lia.
      repeat split; try lia. all: intros; lia.
    + rewrite fmap_cons. cbn [run step length].
      destruct (decide (globalTimeLeft s ≤ 1)) as [Hle|Hgt].
      * destruct (globalTick_expire n0 s Hrun Hle) as (H1 & H2 & H3).
        destruct (globalTick n0 s) as [s1 out1] eqn:Htick. simpl in H1, H2, H3.
        rewrite (globalTicks_stopped nows s1 H3). simpl.
        rewrite app_nil_r.
        apply globalTimerRunning_true in Hrun as (_ & Hpos & _).
        rewrite bool_decide_eq_true_2 by lia.
        assert (signals out1 = 1%nat) as Hsig.
        { rewrite H2. apply signals_auto_submit. }
        repeat split; try done.
        -- rewrite H1. simpl. lia.
        -- intros now'. by apply globalTick_stopped.
      * rewrite globalTick_decrement by (done || lia).
        set (s1 := setGlobalTimeLeft (globalTimeLeft s - 1) s).
        assert (globalTimerRunning s1 = true) as Hrun1.
        { apply globalTimerRunning_true.
          apply globalTimerRunning_true in Hrun as (? & ? & ? & ?).
          subst s1; simpl. repeat split; try done. lia. }
        destruct (IH s1 Hrun1) as (IH1 & IH2 & IH3).
        destruct (run (GlobalTimerFired <$> nows) s1) as [s2 out2].
        simpl in *. rewrite IH1, IH2.
        repeat split.
        -- lia.
        -- repeat case_bool_decide; try done; lia.
        -- apply IH3. lia.
        -- apply IH3. lia.
Qed.

Lemma globalTimer_expiry_witness :
  globalTimeLeft (globalTick 7 sessionAtLast).1 = 0
  ∧ signals (globalTick 7 sessionAtLast).2 = 1%nat
  ∧ globalTimerRunning (globalTick 7 sessionAtLast).1 = false
  ∧ run (GlobalTimerFired <$> [8; 9]) (globalTick 7 sessionAtLast).1
    = ((globalTick 7 sessionAtLast).1, []).
Proof.
  destruct (globalTimer_expiry sessionAtLast 7 [8; 9]) as [Hexp _];
    [reflexivity|].
  apply Hexp. vm_compute. discriminate.
Defined.

(** ** Advancing and the question timer *)

Section QuestionTimer.
Implicit Types (s r : State) (now : Z).

Lemma questionTimerRunning_true s :
  questionTimerRunning s = true ↔
  is_Some (activeQuiz s) ∧ submitted s = false ∧ view s = STUDENT_LOBBY
  ∧ feedback s = None ∧ questions s ≠ [].
Proof.
  unfold questionTimerRunning.
  rewrite !andb_true_iff, !bool_decide_eq_true, negb_true_iff, Z.ltb_lt.
  assert (0 < Z.of_nat (length (questions s)) ↔ questions s ≠ []) as ->.
  { destruct (questions s); simpl; [|split; [done|lia]].
    split; [lia|done]. }
  tauto.
Qed.

(** The advance rule as [handleNextQuestion] applies it. *)
Lemma handleNextQuestion_advance r now s :
  Z.of_nat (currentQIndex r) < Z.of_nat (length (questions r)) - 1 →
  handleNextQuestion r now s
  = (setCurrentQIndex (currentQIndex s + 1)
       (setQuestionTimeLeft 60 (setFeedback None s)), []).
Proof.
  intros Hlt. unfold handleNextQuestion.
  by rewrite (proj2 (Z.ltb_lt _ _) Hlt).
Qed.

Lemma handleNextQuestion_finish r now s :
  ¬ Z.of_nat (currentQIndex r) < Z.of_nat (length (questions r)) - 1 →
  handleNextQuestion r now s
  = submitRef_current s now (setQuestionTimeLeft 60 (setFeedback None s)).
Proof.
  intros Hge. unfold handleNextQuestion.
  by rewrite (proj2 (Z.ltb_ge _ _)) by lia.
Qed.

(** Whatever closure runs it, [handleNextQuestion] clears the feedback,
    refills the question timer and keeps the answers. *)
Lemma handleNextQuestion_resets r now s :
  let s' := (handleNextQuestion r now s).1 in
  feedback s' = None ∧ questionTimeLeft s' = 60 ∧ answers s' = answers s
  ∧ questions s' = questions s ∧ view s' = view s ∧ user s' = user s
  ∧ activeQuiz s' = activeQuiz s ∧ globalTimeLeft s' = globalTimeLeft s.
Proof.
  unfold handleNextQuestion, submitRef_current.
  destruct (_ <? _); [simpl; done|].
  pose proof (handleSubmitQuiz_frame s now
                (setQuestionTimeLeft 60 (setFeedback None s))) as Hf.
  destruct (handleSubmitQuiz s now _) as [s1 out]. simpl in *.
  destruct Hf as (Hv & Hu & Hq & Hqs & _ & Ha & Hg & Ht & Hfb).
  by rewrite Hv, Hu, Hq, Hqs, Ha, Hg, Ht, Hfb.
Qed.

Lemma questionTick_stopped now s :
  questionTimerRunning s = false → questionTick now s = (s, []).
Proof. unfold questionTick. by intros ->. Qed.

Lemma questionTick_decrement now s :
  questionTimerRunning s = true → 1 < questionTimeLeft s →
  questionTick now s = (setQuestionTimeLeft (questionTimeLeft s - 1) s, []).
Proof.
  intros Hr Ht. unfold questionTick. rewrite Hr.
  by rewrite (proj2 (Z.leb_gt _ _) Ht).
Qed.

Lemma questionTick_expire now s :
  questionTimerRunning s = true → questionTimeLeft s ≤ 1 →
  questionTick now s
  = (setQuestionTimeLeft 60 (handleNextQuestion s now s).1,
     (handleNextQuestion s now s).2).
Proof.
  intros Hr Ht. unfold questionTick. rewrite Hr.
  rewrite (proj2 (Z.leb_le _ _) Ht).
  by destruct (handleNextQuestion s now s).
Qed.

End QuestionTimer.

(** C4. Expiry of the question timer on question index [i].  The advance
    rule runs with nothing recorded and no feedback shown: the answers are
    those of before, the feedback stays empty and no feedback delay is set
    up.  If [i] is below the last index the index becomes [i + 1] and the
    question timer is back at 60; otherwise the session of a logged-in
    participant is submitted (one record stored) and the index stays.  In
    particular, with ten questions, expiry at index 3 leads to index 4 and an
    identifier without an answer before has none after. *)
Theorem questionTimer_expiry (s : State) (now : Z) :
  questionTimerRunning s = true → questionTimeLeft s ≤ 1 →
  let res := questionTick now s in
  let i := Z.of_nat (currentQIndex s) in
  let lastIndex := Z.of_nat (length (questions s)) - 1 in
  answers res.1 = answers s
  ∧ feedback res.1 = None
  ∧ (∀ r delay, SetTimeoutNextQuestion r delay ∉ res.2)
  ∧ questionTimeLeft res.1 = 60
  ∧ (i < lastIndex →
       currentQIndex res.1 = (currentQIndex s + 1)%nat
       ∧ submitted res.1 = false ∧ res.2 = [])
  ∧ (¬ i < lastIndex → is_Some (user s) →
       submitted res.1 = true ∧ currentQIndex res.1 = currentQIndex s
       ∧ length (records res.2) = 1%nat)
  ∧ (length (questions s) = 10%nat → currentQIndex s = 3%nat →
       currentQIndex res.1 = 4%nat
       ∧ ∀ qid, answers s !! qid = None → answers res.1 !! qid = None).
Proof.
  intros Hrun Ht. cbv zeta.
  rewrite (questionTick_expire now s Hrun Ht). simpl.
  pose proof (handleNextQuestion_resets s now s) as (Hf & _ & Ha & _).
  apply questionTimerRunning_true in Hrun as (Hq & Hsub & Hv & Hfb & Hne).
  assert (∀ r delay,
            SetTimeoutNextQuestion r delay ∉ (handleNextQuestion s now s).2)
    as Hnodelay.
  { intros r delay. unfold handleNextQuestion, submitRef_current.
    destruct (_ <? _); simpl; [apply not_elem_of_nil|].
    unfold handleSubmitQuiz.
    destruct (user s), (activeQuiz s), (submitted s); simpl;
      rewrite ?not_elem_of_cons; repeat split; try done;
      apply not_elem_of_nil. }
  split; [exact Ha|]. split; [exact Hf|]. split; [exact Hnodelay|].
  split; [reflexivity|].
  split; [|split].
  - intros Hlt. rewrite handleNextQuestion_advance by done. simpl.
    by rewrite Hsub.
  - intros Hge [u Hu]. destruct Hq as [quiz Hquiz].
    rewrite handleNextQuestion_finish by done.
    unfold submitRef_current.
    rewrite (handleSubmitQuiz_live s now _ u quiz Hu Hquiz Hsub). simpl.
    done.
  - intros Hlen Hi.
    rewrite handleNextQuestion_advance by (rewrite Hlen, Hi; lia).
    simpl. rewrite Hi. split; [reflexivity | done].
Qed.

Lemma questionTimer_expiry_witness :
  currentQIndex (questionTick 7 sessionAtIndex3).1 = 4%nat
  ∧ answers (questionTick 7 sessionAtIndex3).1 !! "q4" = None
  ∧ submitted (questionTick 7 sessionAtLast).1 = true.
Proof.
  destruct (questionTimer_expiry sessionAtIndex3 7)
    as (_ & _ & _ & _ & _ & _ & Hten);
    [reflexivity | vm_compute; discriminate |].
  destruct (questionTimer_expiry sessionAtLast 7)
    as (_ & _ & _ & _ & _ & Hlast & _);
    [reflexivity | vm_compute; discriminate |].
  destruct Hten as [Hidx Hans]; [reflexivity | reflexivity |].
  destruct Hlast as (Hsub & _); [vm_compute; by intros [=] | by eexists |].
  split; [exact Hidx|]. split; [|exact Hsub].
  apply Hans. reflexivity.
Defined.

(** ** Every transition and the question timer *)

Section QuestionTimerReset.
Implicit Types (s r : State) (now : Z).

Lemma keepsQuestionOrRefills_refl s : keepsQuestionOrRefills s s.
Proof. left. by split; [|left]. Qed.

Lemma loadActiveQuiz_question_timer now quiz allQs s :
  keepsQuestionOrRefills s (loadActiveQuiz now quiz allQs s).
Proof.
  unfold loadActiveQuiz. destruct quiz as [q|]; [|apply keepsQuestionOrRefills_refl].
  destruct (publishedAt q) as [pa|]; [|left; by split; [|left]].
  case_bool_decide; [left; by split; [|left] | by right].
Qed.

Lemma clickOption_question_timer n s s' out :
  clickOption n s = Normal s' out → keepsQuestionOrRefills s s'.
Proof.
  unfold clickOption.
  destruct (render s) as [| | | | | | | | |q btns|];
    try (intros [= <- _]; apply keepsQuestionOrRefills_refl).
  destruct (btns !! n) as [b|];
    [|intros [= <- _]; apply keepsQuestionOrRefills_refl].
  destruct (btn_disabled b);
    [intros [= <- _]; apply keepsQuestionOrRefills_refl|].
  unfold handleOptionClick. destruct (feedback s) as [fb|] eqn:Hfb.
  - intros [= <- _]. apply keepsQuestionOrRefills_refl.
  - destruct (questions s !! currentQIndex s); [|done].
    intros [= <- _]. left. simpl. split; [done | right; by eexists].
Qed.

Lemma clickLogout_question_timer s : keepsQuestionOrRefills s (clickLogout s).
Proof.
  unfold clickLogout. destruct (render s); simpl;
    first [apply keepsQuestionOrRefills_refl | left; by split; [|left]].
Qed.

Lemma globalTick_question_timer now s :
  keepsQuestionOrRefills s (globalTick now s).1.
Proof.
  unfold globalTick. destruct (globalTimerRunning s);
    [|apply keepsQuestionOrRefills_refl].
  destruct (_ <=? _); [|left; by split; [|left]].
  unfold submitRef_current.
  pose proof (handleSubmitQuiz_frame s now s) as Hf.
  destruct (handleSubmitQuiz s now s) as [s1 out]. simpl in *.
  destruct Hf as (_ & _ & _ & _ & Hi & _ & _ & _ & Hfb).
  left. split; [done | by left].
Qed.

Lemma questionTick_question_timer now s :
  keepsQuestionOrRefills s (questionTick now s).1.
Proof.
  unfold questionTick. destruct (questionTimerRunning s);
    [|apply keepsQuestionOrRefills_refl].
  destruct (_ <=? _); [|left; by split; [|left]].
  destruct (handleNextQuestion s now s). by right.
Qed.

Lemma step_question_timer e s : keepsQuestionOrRefills s (step e s).1.
Proof.
  destruct e as [to|u now quiz allQs|u| |now quiz allQs|n|r now|now|now];
    cbn [step].
  - unfold navigate. destruct (navigates _ _); simpl;
      [left; by split; [|left] | apply keepsQuestionOrRefills_refl].
  - case_bool_decide; [|apply keepsQuestionOrRefills_refl]. simpl.
    unfold handleStudentLogin.
    destruct (loadActiveQuiz_question_timer now quiz allQs
                (setView STUDENT_LOBBY (setUser (Some u) s))) as [[Hi Hf]|Ht];
      [left | by right].
    simpl in *. by split.
  - case_bool_decide; [|apply keepsQuestionOrRefills_refl].
    left. simpl. by split; [|left].
  - apply clickLogout_question_timer.
  - simpl. unfold onQuizPublished. destruct (user s) as [u|];
      [|apply keepsQuestionOrRefills_refl].
    case_bool_decide; [|apply keepsQuestionOrRefills_refl].
    apply loadActiveQuiz_question_timer.
  - destruct (clickOption n s) as [s' out|] eqn:Hclick; simpl;
      [by eapply clickOption_question_timer | apply keepsQuestionOrRefills_refl].
  - right. apply handleNextQuestion_resets.
  - apply globalTick_question_timer.
  - apply questionTick_question_timer.
Qed.

End QuestionTimerReset.

(** C7, amended.  The question timer runs only in the lobby view with an
    active, unsubmitted quiz, no feedback on screen and at least one
    question loaded.  With the current index in range that is the quiz view
    with its buttons enabled; the guard does not test the index, and with
    the index out of range the screen under the running timer is "Error:
    Question not found.".  When the timer does not run, in particular while
    feedback is visible, a firing changes nothing, and a firing before
    expiry takes off exactly one second.  Whatever the transition and
    whatever time was left: if it changes the current question index or
    clears the feedback, the question timer stands at 60 afterwards. *)
Theorem questionTimer_suspension_and_reset (s : State) (e : Event) (now : Z) :
  (questionTimerRunning s = true →
     view s = STUDENT_LOBBY ∧ is_Some (activeQuiz s) ∧ submitted s = false
     ∧ feedback s = None ∧ questions s ≠ []
     ∧ (∀ q, questions s !! currentQIndex s = Some q →
             render s = QuizScreen q (optionButtons s q)
             ∧ ∀ b, b ∈ optionButtons s q → btn_disabled b = false)
     ∧ (questions s !! currentQIndex s = None → render s = QuestionNotFound))
  ∧ (questionTimerRunning s = false → questionTick now s = (s, []))
  ∧ (is_Some (feedback s) → questionTick now s = (s, []))
  ∧ (questionTimerRunning s = true → 1 < questionTimeLeft s →
       questionTick now s = (setQuestionTimeLeft (questionTimeLeft s - 1) s, []))
  ∧ (let s' := (step e s).1 in
     currentQIndex s' ≠ currentQIndex s
     ∨ (is_Some (feedback s) ∧ feedback s' = None) →
     questionTimeLeft s' = 60).
Proof.
  split; [|split; [|split; [|split]]].
  - intros (Hq & Hsub & Hv & Hfb & Hne)%questionTimerRunning_true.
    do 5 (split; [done|]).
    assert (length (questions s) ≠ 0%nat) as Hlen by by destruct (questions s).
    split.
    + intros q Hcur. split.
      * unfold render. rewrite Hv. destruct Hq as [quiz ->]. rewrite Hsub.
        by rewrite bool_decide_eq_false_2, Hcur.
      * intros b. unfold optionButtons.
        destruct (question_options q); [|by intros ?%elem_of_nil].
        intros (opt & -> & _)%list_elem_of_fmap. simpl.
        rewrite Hfb. apply bool_decide_eq_false_2. by intros [? [=]].
    + intros Hnone. unfold render. rewrite Hv. destruct Hq as [quiz ->].
      rewrite Hsub. by rewrite bool_decide_eq_false_2, Hnone.
  - apply questionTick_stopped.
  - intros [fb Hfb]. apply questionTick_stopped.
    unfold questionTimerRunning. rewrite Hfb.
    rewrite (bool_decide_eq_false_2 (Some fb = None)) by done.
    by rewrite andb_false_r.
  - apply questionTick_decrement.
  - cbv zeta. destruct (step_question_timer e s) as [[Hi Hf]|Ht]; [|done].
    intros [Hne|[[fb Hfb] Hnone]]; [done|].
    rewrite Hfb, Hnone in Hf. destruct Hf as [Hf|[? Hf]]; done.
Qed.

Lemma questionTimer_suspension_and_reset_witness :
  questionTick 7 sessionShowingFeedback = (sessionShowingFeedback, [])
  ∧ questionTimeLeft
      (step (FeedbackDelayElapsed sessionShowingFeedback 7)
         sessionShowingFeedback).1 = 60.
Proof.
  destruct (questionTimer_suspension_and_reset sessionShowingFeedback
              (FeedbackDelayElapsed sessionShowingFeedback 7) 7)
    as (_ & _ & Hfb & _ & Hreset).
  split.
  - apply Hfb. by eexists.
  - apply Hreset. left. vm_compute. discriminate.
Defined.

(** For C7: the claim fails.  Alice answers the first of ten questions, the
    quiz is published again over a bank of one question before the feedback
    delay is over, and the delay ends.  The session then stands on index 1
    of a one-question list: no question is displayed, the screen is "Error:
    Question not found.", and the question timer runs and counts down. *)
Lemma question_timer_runs_on_error_screen :
  reachable sessionStrayIndex
  ∧ length (questions sessionStrayIndex) = 1%nat
  ∧ currentQIndex sessionStrayIndex = 1%nat
  ∧ questions sessionStrayIndex !! currentQIndex sessionStrayIndex = None
  ∧ render sessionStrayIndex = QuestionNotFound
  ∧ questionTimerRunning sessionStrayIndex = true
  ∧ questionTimeLeft sessionStrayIndex = 60
  ∧ questionTimeLeft (questionTick 1002000 sessionStrayIndex).1 = 59.
Proof.
  split.
  { exists [Navigate STUDENT_LOGIN;
            StudentLoggedIn alice 1000000 (Some dailyQuiz) tenQuestions;
            OptionClicked 1;
            QuizPublished 1000400 (Some dailyQuiz) [mkQuestion "q1" "b"];
            FeedbackDelayElapsed tenQuestionSession 1001000].
    unfold sessionStrayIndex. reflexivity. }
  do 6 (split; [by vm_compute|]). by vm_compute.
Qed.

(** ** Selecting an option *)

Section Selecting.
Implicit Types (s r : State) (n : nat).

Lemma handleOptionClick_locked s questionId optionId :
  is_Some (feedback s) →
  handleOptionClick s questionId optionId s = Normal s [].
Proof. intros [fb Hfb]. unfold handleOptionClick. by rewrite Hfb. Qed.

Lemma handleOptionClick_records s questionId optionId currentQ :
  feedback s = None → questions s !! currentQIndex s = Some currentQ →
  handleOptionClick s questionId optionId s
  = Normal
      (setFeedback
         (Some {| selectedId := optionId;
                  isCorrect := bool_decide (optionId = correctAnswer currentQ) |})
         (setAnswers (<[questionId := optionId]> (answers s)) s))
      [SetTimeoutNextQuestion s 1000].
Proof. intros Hfb Hq. unfold handleOptionClick. by rewrite Hfb, Hq. Qed.

Lemma handleOptionClick_no_question s questionId optionId :
  feedback s = None → questions s !! currentQIndex s = None →
  handleOptionClick s questionId optionId s = TypeError.
Proof. intros Hfb Hq. unfold handleOptionClick. by rewrite Hfb, Hq. Qed.

(** The quiz view is on screen exactly when the lobby has an active,
    unsubmitted quiz whose current question exists. *)
Lemma render_QuizScreen s q btns :
  render s = QuizScreen q btns ↔
  view s = STUDENT_LOBBY ∧ is_Some (activeQuiz s) ∧ submitted s = false
  ∧ questions s !! currentQIndex s = Some q ∧ btns = optionButtons s q.
Proof.
  unfold render. split.
  - destruct (view s); try done.
    destruct (activeQuiz s) as [quiz|]; [|done].
    destruct (submitted s); [done|].
    case_bool_decide; [done|].
    destruct (questions s !! currentQIndex s) as [q'|]; [|done].
    intros [= -> <-]. repeat split; by eauto.
  - intros (-> & [quiz ->] & -> & Hq & ->).
    rewrite bool_decide_eq_false_2, Hq; [done|].
    intros Hlen. apply length_zero_iff_nil in Hlen.
    by rewrite Hlen in Hq.
Qed.

Lemma optionButtons_lookup s q opts n :
  question_options q = Some opts →
  optionButtons s q !! n
  = (λ opt, {| btn_option := opt;
               btn_disabled := bool_decide (is_Some (feedback s));
               btn_onClick := (question_id q, option_id opt) |}) <$> opts !! n.
Proof. intros Ho. unfold optionButtons. by rewrite Ho, list_lookup_fmap. Qed.

(** The handler itself does not look at [submitted]: what keeps a submitted
    session from recording answers is that its screen has no answer
    button. *)
Remark handleOptionClick_ignores_submitted :
  let s := setSubmitted true sessionAtIndex3 in
  render s = QuizCompleted None 10
  ∧ clickOption 3 s = Normal s []
  ∧ ∃ s', handleOptionClick s "q4" "d" s
          = Normal s' [SetTimeoutNextQuestion s 1000]
          ∧ answers s' !! "q4" = Some "d".
Proof.
  cbv zeta. split; [reflexivity|]. split; [reflexivity|].
  eexists. split; [reflexivity|]. reflexivity.
Qed.

End Selecting.

(** C3. A user's selection of the [n]-th option of the current question.
    It is rejected, with no change to any part of the session state, if
    feedback is already set (the buttons are disabled and the handler
    returns at once) or if the session is already submitted (the completed
    screen has no answer button).  Otherwise, on the quiz view, it stores
    the chosen option under the current question's identifier in the answer
    record, replacing what was there, sets the feedback to the chosen option
    and to whether it equals the question's correct option, and changes no
    other part of the state. *)
Theorem selectOption_contract (s : State) (n : nat) :
  (is_Some (feedback s) ∨ submitted s = true → clickOption n s = Normal s [])
  ∧ (∀ questionId optionId, is_Some (feedback s) →
       handleOptionClick s questionId optionId s = Normal s [])
  ∧ (∀ q opts o,
       view s = STUDENT_LOBBY → is_Some (activeQuiz s) →
       submitted s = false → feedback s = None →
       questions s !! currentQIndex s = Some q →
       question_options q = Some opts → opts !! n = Some o →
       ∃ s',
         clickOption n s = Normal s' [SetTimeoutNextQuestion s 1000]
         ∧ answers s' = <[question_id q := option_id o]> (answers s)
         ∧ answers s' !! question_id q = Some (option_id o)
         ∧ (∀ qid, qid ≠ question_id q → answers s' !! qid = answers s !! qid)
         ∧ feedback s'
           = Some {| selectedId := option_id o;
                     isCorrect := bool_decide (option_id o = correctAnswer q) |}
         ∧ view s' = view s ∧ user s' = user s ∧ activeQuiz s' = activeQuiz s
         ∧ questions s' = questions s ∧ currentQIndex s' = currentQIndex s
         ∧ globalTimeLeft s' = globalTimeLeft s
         ∧ questionTimeLeft s' = questionTimeLeft s
         ∧ submitted s' = submitted s ∧ result s' = result s).
Proof.
  split; [|split].
  - intros Hrej. unfold clickOption.
    destruct (render s) as [| | | | | | | | |q btns|] eqn:Hr; try done.
    apply render_QuizScreen in Hr as (Hv & Hq & Hsub & Hcur & ->).
    destruct Hrej as [Hfb|Hs]; [|congruence].
    destruct (optionButtons s q !! n) as [b|] eqn:Hb; [|done].
    assert (btn_disabled b = true) as ->; [|done].
    apply list_elem_of_lookup_2 in Hb. unfold optionButtons in Hb.
    destruct (question_options q); [|by apply elem_of_nil in Hb].
    apply list_elem_of_fmap in Hb as (opt & -> & _). simpl.
    by apply bool_decide_eq_true_2.
  - intros questionId optionId. apply handleOptionClick_locked.
  - intros q opts o Hv Hq Hsub Hfb Hcur Hopts Ho.
    eexists. split.
    + unfold clickOption.
      rewrite (proj2 (render_QuizScreen s q (optionButtons s q))) by done.
      rewrite (optionButtons_lookup s q opts n Hopts), Ho. simpl.
      rewrite Hfb, bool_decide_eq_false_2 by (by intros [? [=]]).
      by apply handleOptionClick_records.
    + simpl. repeat split.
      * apply lookup_insert_eq.
      * intros qid Hne. by apply lookup_insert_ne.
Qed.

Lemma selectOption_contract_witness :
  clickOption 3 sessionShowingFeedback = Normal sessionShowingFeedback []
  ∧ ∃ s', clickOption 3 sessionAtIndex3
          = Normal s' [SetTimeoutNextQuestion sessionAtIndex3 1000]
          ∧ answers s' !! "q4" = Some "d"
          ∧ feedback s' = Some {| selectedId := "d"; isCorrect := true |}.
Proof.
  destruct (selectOption_contract sessionShowingFeedback 3) as (Hrej & _).
  destruct (selectOption_contract sessionAtIndex3 3) as (_ & _ & Hsel).
  split.
  - apply Hrej. left. by eexists.
  - destruct (Hsel (mkQuestion "q4" "d") abcd
                {| option_id := "d"; option_text := "fourth" |})
      as (s' & Hclick & _ & Hans & _ & Hfb & _);
      [reflexivity | by eexists | reflexivity | reflexivity | reflexivity
      | reflexivity | reflexivity |].
    exists s'. split; [exact Hclick|]. split; [exact Hans | exact Hfb].
Defined.

(** C10. [handleOptionClick] takes its two strings as they come.  With no
    feedback set and a current question in place, for every pair
    [(questionId, optionId)] it stores [optionId] under [questionId] in the
    answer record, whether or not [questionId] is the current question's
    identifier and whether or not [optionId] is one of its options, and the
    feedback's correctness is nothing but the equality of [optionId] with the
    current question's [correctAnswer] string; so an option identifier that
    is not on offer counts as correct when it equals that string. *)
Theorem handleOptionClick_unvalidated
    (s : State) (questionId optionId : string) (currentQ : Question) :
  feedback s = None → questions s !! currentQIndex s = Some currentQ →
  ∃ s',
    handleOptionClick s questionId optionId s
    = Normal s' [SetTimeoutNextQuestion s 1000]
    ∧ answers s' = <[questionId := optionId]> (answers s)
    ∧ answers s' !! questionId = Some optionId
    ∧ feedback s'
      = Some {| selectedId := optionId;
                isCorrect := bool_decide (optionId = correctAnswer currentQ) |}
    ∧ (optionId = correctAnswer currentQ →
         isCorrect <$> feedback s' = Some true).
Proof.
  intros Hfb Hq. eexists. split; [by apply handleOptionClick_records|].
  simpl. repeat split.
  - apply lookup_insert_eq.
  - intros ->. by rewrite bool_decide_eq_true_2.
Qed.

Lemma handleOptionClick_unvalidated_witness :
  ("no-such-question" ≠ question_id (mkQuestion "q1" "z")
   ∧ "z" ∉ option_id <$> abcd)
  ∧ ∃ s',
      handleOptionClick sessionOddKey "no-such-question" "z" sessionOddKey
      = Normal s' [SetTimeoutNextQuestion sessionOddKey 1000]
      ∧ answers s' !! "no-such-question" = Some "z"
      ∧ isCorrect <$> feedback s' = Some true.
Proof.
  split.
  - split; [discriminate|]. apply (bool_decide_unpack _). vm_compute. exact I.
  - destruct (handleOptionClick_unvalidated sessionOddKey "no-such-question"
                "z" (mkQuestion "q1" "z"))
      as (s' & Hclick & _ & Hans & _ & Hcorrect);
      [reflexivity | reflexivity |].
    exists s'. split; [exact Hclick|]. split; [exact Hans|].
    apply Hcorrect. reflexivity.
Defined.

(** ** Render guards *)

(** C9. When the question list is empty or the current index is out of
    range, the quiz view is not rendered: every [QuizScreen] carries a
    current question that exists.  In the lobby with an active, unsubmitted
    quiz the screen is then the loading screen (empty list) or the
    question-not-found screen (index out of range), each distinct from the
    quiz view and from one another; no answer button is on offer and a click
    on an option changes nothing. *)
Theorem render_guards (s : State) :
  (∀ q btns, render s = QuizScreen q btns →
     questions s !! currentQIndex s = Some q)
  ∧ (questions s = [] ∨ questions s !! currentQIndex s = None →
       (∀ q btns, render s ≠ QuizScreen q btns)
       ∧ canAnswer (render s) = false
       ∧ (∀ n, clickOption n s = Normal s [])
       ∧ (view s = STUDENT_LOBBY → is_Some (activeQuiz s) →
          submitted s = false →
          (questions s = [] → render s = LoadingQuestions)
          ∧ (questions s ≠ [] → render s = QuestionNotFound))).
Proof.
  split.
  { intros q btns Hr. by apply render_QuizScreen in Hr as (_ & _ & _ & ? & _). }
  intros Hbad.
  assert (questions s !! currentQIndex s = None) as Hnone.
  { destruct Hbad as [Hnil|Hnone]; [by rewrite Hnil | done]. }
  assert (∀ q btns, render s = QuizScreen q btns → False) as Hnoquiz.
  { intros q btns Hr. apply render_QuizScreen in Hr as (_ & _ & _ & Hq & _).
    congruence. }
  split; [exact Hnoquiz|]. split; [|split].
  - destruct (render s) as [| | | | | | | | |q btns|] eqn:Hr; try reflexivity.
    by destruct (Hnoquiz q btns).
  - intros n. unfold clickOption.
    destruct (render s) as [| | | | | | | | |q btns|] eqn:Hr; try reflexivity.
    by destruct (Hnoquiz q btns).
  - intros Hv [quiz Hquiz] Hsub. unfold render. rewrite Hv, Hquiz, Hsub. split.
    + by intros ->.
    + intros Hne. rewrite bool_decide_eq_false_2, Hnone; [done|].
      intros Hlen. by apply length_zero_iff_nil in Hlen.
Qed.

Lemma render_guards_witness :
  render sessionNoQuestions = LoadingQuestions
  ∧ render sessionIndexOutOfRange = QuestionNotFound
  ∧ clickOption 0 sessionIndexOutOfRange = Normal sessionIndexOutOfRange [].
Proof.
  destruct (render_guards sessionNoQuestions) as (_ & Hempty).
  destruct (render_guards sessionIndexOutOfRange) as (_ & Hrange).
  destruct Hempty as (_ & _ & _ & Hload); [by left|].
  destruct Hrange as (_ & _ & Hclick & Herr); [by right|].
  split; [|split].
  - apply Hload; [reflexivity | by eexists | reflexivity | reflexivity].
  - apply Herr; [reflexivity | by eexists | reflexivity | discriminate].
  - apply Hclick.
Defined.

(** ** Loading the active quiz *)

Section Loading.
Implicit Types (s : State) (now : Z).

Lemma loadActiveQuiz_published now quiz allQs s pa :
  publishedAt quiz = Some pa → pa ≠ 0 →
  loadActiveQuiz now (Some quiz) allQs s
  = {| view := view s; user := user s; activeQuiz := Some quiz;
       questions := take 10 allQs; currentQIndex := 0; answers := ∅;
       globalTimeLeft := spec_initialRemaining 600 now pa;
       questionTimeLeft := 60; feedback := None; submitted := false;
       result := result s |}.
Proof.
  intros Hpa Hne. unfold loadActiveQuiz. rewrite Hpa.
  rewrite bool_decide_eq_false_2 by done.
  unfold spec_initialRemaining, setGlobalTimeLeft. simpl. f_equal.
  change (10 * 60) with 600.
  destruct (0 <? 600 - (now - pa) `div` 1000) eqn:Hlt.
  - apply Z.ltb_lt in Hlt. lia.
  - apply Z.ltb_ge in Hlt. lia.
Qed.

(** Without a publish timestamp only the quiz and its questions are
    replaced. *)
Lemma loadActiveQuiz_unpublished now quiz allQs s :
  publishedAt quiz = None ∨ publishedAt quiz = Some 0 →
  loadActiveQuiz now (Some quiz) allQs s
  = setQuestions (take 10 allQs) (setActiveQuiz (Some quiz) s).
Proof. unfold loadActiveQuiz. by intros [-> | ->]. Qed.

Lemma loadActiveQuiz_view_user now quiz allQs s :
  view (loadActiveQuiz now quiz allQs s) = view s
  ∧ user (loadActiveQuiz now quiz allQs s) = user s.
Proof.
  unfold loadActiveQuiz. destruct quiz as [q|]; [|done].
  destruct (publishedAt q); [|done]. by case_bool_decide.
Qed.

End Loading.

(** For C2: the claim fails on a quiz that declares five minutes.  Loaded at
    the instant of publication it starts with 600 seconds, not with the 300
    its own duration gives. *)
Lemma initial_remaining_ignores_duration :
  durationSeconds fiveMinuteQuiz = 300
  ∧ publishedAt fiveMinuteQuiz = Some 1000000
  ∧ globalTimeLeft
      (loadActiveQuiz 1000000 (Some fiveMinuteQuiz) tenQuestions initialState)
    = 600
  ∧ globalTimeLeft
      (loadActiveQuiz 1000000 (Some fiveMinuteQuiz) tenQuestions initialState)
    ≠ spec_initialRemaining (durationSeconds fiveMinuteQuiz) 1000000 1000000.
Proof. repeat split. vm_compute. discriminate. Qed.

(** C2, amended.  For every load of an active quiz that carries a non-zero
    publish timestamp, whatever the state before and whatever duration the
    quiz declares, the initial remaining global time is
    [600 - floor((now - publishedAt) / 1000)] clamped to a minimum of 0 (the
    ten minutes are fixed in [loadActiveQuiz]); for a quiz declaring ten
    minutes this is the value derived from its own duration; loading 125000
    ms after publication gives 475 seconds. *)
Theorem initial_remaining_ten_minutes
    (s : State) (now pa : Z) (quiz : Quiz) (allQs : list Question) :
  publishedAt quiz = Some pa → pa ≠ 0 →
  let remaining := globalTimeLeft (loadActiveQuiz now (Some quiz) allQs s) in
  remaining = spec_initialRemaining 600 now pa
  ∧ 0 ≤ remaining
  ∧ (durationMinutes quiz = 10 →
       remaining = spec_initialRemaining (durationSeconds quiz) now pa)
  ∧ (now = pa + 125000 → remaining = 475).
Proof.
  intros Hpa Hne. cbv zeta.
  rewrite (loadActiveQuiz_published now quiz allQs s pa Hpa Hne). simpl.
  unfold spec_initialRemaining, durationSeconds. repeat split.
  - lia.
  - by intros ->.
  - intros ->. replace (pa + 125000 - pa) with 125000 by lia. reflexivity.
Qed.

Lemma initial_remaining_ten_minutes_witness :
  globalTimeLeft
    (loadActiveQuiz 1125000 (Some dailyQuiz) tenQuestions sessionAtLast) = 475.
Proof.
  destruct (initial_remaining_ten_minutes sessionAtLast 1125000 1000000
              dailyQuiz tenQuestions) as (_ & _ & _ & H475);
    [reflexivity | discriminate |].
  apply H475. reflexivity.
Defined.

(** For C5: the claim fails.  Alice is on question index 3 of the daily quiz
    with three answers recorded; the notification arrives again for the same
    quiz and she is back on index 0 with no answer recorded. *)
Lemma republished_quiz_resets_session :
  activeQuiz sessionAtIndex3 = Some dailyQuiz
  ∧ currentQIndex sessionAtIndex3 = 3%nat
  ∧ answers sessionAtIndex3 !! "q1" = Some "b"
  ∧ currentQIndex
      (step (QuizPublished 1200000 (Some dailyQuiz) tenQuestions)
         sessionAtIndex3).1 = 0%nat
  ∧ answers
      (step (QuizPublished 1200000 (Some dailyQuiz) tenQuestions)
         sessionAtIndex3).1 !! "q1" = None.
Proof. repeat split. Qed.

(** C5, amended.  A "quiz published" notification observed by a student
    reloads the active quiz, and when that quiz carries a non-zero publish
    timestamp the session starts over, whether or not the quiz identifier is
    the one already in progress: index 0, no answers, no feedback, not
    submitted, question timer at 60, global time derived from the publish
    timestamp.  A second delivery at the same instant changes nothing
    more. *)
Theorem quizPublished_restarts_session
    (s : State) (u : User) (now pa : Z) (quiz : Quiz) (allQs : list Question) :
  user s = Some u → user_role u = STUDENT →
  publishedAt quiz = Some pa → pa ≠ 0 →
  let delivery := QuizPublished now (Some quiz) allQs in
  let s' := (step delivery s).1 in
  activeQuiz s' = Some quiz ∧ questions s' = take 10 allQs
  ∧ currentQIndex s' = 0%nat ∧ answers s' = ∅ ∧ feedback s' = None
  ∧ submitted s' = false ∧ questionTimeLeft s' = 60
  ∧ globalTimeLeft s' = spec_initialRemaining 600 now pa
  ∧ view s' = view s ∧ user s' = user s ∧ result s' = result s
  ∧ (step delivery s').1 = s'.
Proof.
  intros Hu Hrole Hpa Hne. cbv zeta. cbn [step fst].
  assert (∀ s0, user s0 = Some u →
            onQuizPublished now (Some quiz) allQs s0
            = loadActiveQuiz now (Some quiz) allQs s0) as Hstep.
  { intros s0 Hu0. unfold onQuizPublished.
    by rewrite Hu0, bool_decide_eq_true_2. }
  rewrite (Hstep s Hu).
  rewrite (loadActiveQuiz_published now quiz allQs s pa Hpa Hne).
  rewrite Hstep by done.
  rewrite (loadActiveQuiz_published now quiz allQs _ pa Hpa Hne).
  done.
Qed.

Lemma quizPublished_restarts_session_witness :
  quiz_id dailyQuiz = quiz_id fiveMinuteQuiz
  ∧ currentQIndex
      (step (QuizPublished 1200000 (Some fiveMinuteQuiz) tenQuestions)
         sessionShowingFeedback).1 = 0%nat
  ∧ feedback
      (step (QuizPublished 1200000 (Some fiveMinuteQuiz) tenQuestions)
         sessionShowingFeedback).1 = None.
Proof.
  destruct (quizPublished_restarts_session sessionShowingFeedback alice
              1200000 1000000 fiveMinuteQuiz tenQuestions)
    as (_ & _ & Hidx & _ & Hfb & _);
    [reflexivity | reflexivity | reflexivity | discriminate |].
  split; [reflexivity|]. split; [exact Hidx | exact Hfb].
Defined.

(** ** Reachable sessions *)

Section Reachable.
Implicit Types (s : State) (e : Event).

Lemma clickOption_view_user n s s' out :
  clickOption n s = Normal s' out → view s' = view s ∧ user s' = user s.
Proof.
  unfold clickOption.
  destruct (render s) as [| | | | | | | | |q btns|]; try by intros [= <- _].
  destruct (btns !! n) as [b|]; [|by intros [= <- _]].
  destruct (btn_disabled b); [by intros [= <- _]|].
  unfold handleOptionClick. destruct (feedback s); [by intros [= <- _]|].
  destruct (questions s !! currentQIndex s); [|done]. by intros [= <- _].
Qed.

Lemma globalTick_view_user now s :
  view (globalTick now s).1 = view s ∧ user (globalTick now s).1 = user s.
Proof.
  unfold globalTick. destruct (globalTimerRunning s); [|done].
  destruct (_ <=? _); [|done]. unfold submitRef_current.
  pose proof (handleSubmitQuiz_frame s now s) as (Hv & Hu & _).
  by destruct (handleSubmitQuiz s now s).
Qed.

Lemma questionTick_view_user now s :
  view (questionTick now s).1 = view s ∧ user (questionTick now s).1 = user s.
Proof.
  unfold questionTick. destruct (questionTimerRunning s); [|done].
  destruct (_ <=? _); [|done].
  pose proof (handleNextQuestion_resets s now s) as (_ & _ & _ & _ & Hv & Hu & _).
  by destruct (handleNextQuestion s now s).
Qed.

(** In the lobby somebody is logged in: a step keeps it so. *)
Lemma step_lobby_has_user e s :
  (view s = STUDENT_LOBBY → is_Some (user s)) →
  view (step e s).1 = STUDENT_LOBBY → is_Some (user (step e s).1).
Proof.
  intros Hinv.
  destruct e as [to|u now quiz allQs|u| |now quiz allQs|n|r now|now|now];
    cbn [step].
  - unfold navigate. destruct (navigates (view s) to) eqn:Hnav; simpl; [|done].
    intros ->. by destruct (view s).
  - case_bool_decide; simpl; [|done]. unfold handleStudentLogin.
    destruct (loadActiveQuiz_view_user now quiz allQs
                (setView STUDENT_LOBBY (setUser (Some u) s))) as [_ ->].
    by eexists.
  - case_bool_decide; simpl; [|done]. by eexists.
  - simpl. unfold clickLogout. destruct (render s) eqn:Hr; simpl; done.
  - simpl. unfold onQuizPublished. destruct (user s) as [u|] eqn:Hu;
      [|by rewrite Hu].
    case_bool_decide; [|by rewrite Hu].
    destruct (loadActiveQuiz_view_user now quiz allQs s) as [-> ->].
    by rewrite Hu.
  - destruct (clickOption n s) as [s' out|] eqn:Hclick; simpl; [|done].
    apply clickOption_view_user in Hclick as [-> ->]. done.
  - destruct (handleNextQuestion_resets r now s)
      as (_ & _ & _ & _ & -> & -> & _). done.
  - destruct (globalTick_view_user now s) as [-> ->]. done.
  - destruct (questionTick_view_user now s) as [-> ->]. done.
Qed.

Lemma run_lobby_has_user es s :
  (view s = STUDENT_LOBBY → is_Some (user s)) →
  view (run es s).1 = STUDENT_LOBBY → is_Some (user (run es s).1).
Proof.
  revert s. induction es as [|e es IH]; intros s Hinv; [done|].
  cbn [run]. pose proof (step_lobby_has_user e s Hinv) as Hstep.
  destruct (step e s) as [s1 out1]. specialize (IH s1 Hstep).
  by destruct (run es s1).
Qed.

(** Whenever a timer runs in a reachable session, a participant is logged
    in, so the finalize guard can only stop on [submitted]. *)
Lemma reachable_lobby_has_user s :
  reachable s → view s = STUDENT_LOBBY → is_Some (user s).
Proof. intros [es <-]. by apply run_lobby_has_user. Qed.

End Reachable.

(** ** The scenarios of section 8 *)

(** Both questions answered correctly: score 2 of 2, submitted, one record. *)
Example scenario_both_correct :
  let s1 := (answerAndWait 1 1001000 twoQuestionSession).1 in
  let res := answerAndWait 0 1002000 s1 in
  submitted res.1 = true ∧ result res.1 = Some 2%nat
  ∧ render res.1 = QuizCompleted (Some 2%nat) 2
  ∧ (sub_score <$> records res.2) = [2%nat]
  ∧ reachable res.1.
Proof.
  cbv zeta. do 4 (split; [by vm_compute|]).
  exists [Navigate STUDENT_LOGIN;
          StudentLoggedIn alice 1000000 (Some dailyQuiz) twoQuestions;
          OptionClicked 1;
          FeedbackDelayElapsed twoQuestionSession 1001000;
          OptionClicked 0;
          FeedbackDelayElapsed
            (answerAndWait 1 1001000 twoQuestionSession).1 1002000].
  by vm_compute.
Qed.

(** First question answered "a" (wrong), second left to time out: the record
    holds the one pair, score 0 of 2. *)
Example scenario_wrong_then_timeout :
  let '(s1, _) := answerAndWait 0 1001000 twoQuestionSession in
  let '(s2, out) := run (QuestionTimerFired <$> seq_Z_times 60) s1 in
  submitted s2 = true ∧ result s2 = Some 0%nat
  ∧ (sub_answers <$> records out) = [[{| questionId := "q1"; value := "a" |}]]
  ∧ (sub_totalQuestions <$> records out) = [2%nat].
Proof. vm_compute. repeat split. Qed.

(** Ten questions, four answered, the global timer running out on index 4:
    the record holds exactly the four pairs and counts ten questions. *)
Example scenario_global_timeout :
  let s := setGlobalTimeLeft 1
             (setCurrentQIndex 4
                (setAnswers (<["q4" := "d"]> (answers sessionAtIndex3))
                   sessionAtIndex3)) in
  let '(s', out) := globalTick 1599000 s in
  submitted s' = true ∧ globalTimeLeft s' = 0
  ∧ (length ∘ sub_answers <$> records out) = [4%nat]
  ∧ (sub_totalQuestions <$> records out) = [10%nat].
Proof. vm_compute. repeat split. Qed.

(** ** One attempt *)

Section Attempt.
Implicit Types (s r : State) (e : Event) (es : list Event).

Lemma records_app (out1 out2 : list Effect) :
  records (out1 ++ out2) = records out1 ++ records out2.
Proof. unfold records. apply omap_app. Qed.

Lemma handleSubmitQuiz_attemptStep s now s1 :
  view s1 = view s → user s1 = user s → activeQuiz s1 = activeQuiz s →
  questions s1 = questions s → submitted s1 = submitted s →
  answers s1 = answers s → result s1 = result s →
  attemptStep s (handleSubmitQuiz s now s1).1 (handleSubmitQuiz s now s1).2.
Proof.
  intros Hv Hu Hq Hqs Hsub Ha Hr. unfold attemptStep, handleSubmitQuiz.
  destruct (user s) as [u|] eqn:Eu, (activeQuiz s) as [quiz|] eqn:Eq,
    (submitted s) eqn:Es; simpl;
    rewrite ?Hv, ?Hu, ?Hq, ?Hqs, ?Hsub, ?Ha, ?Hr, ?Eu, ?Eq, ?Es;
    repeat split; try done; try (by left); by right.
Qed.

Lemma submitRef_current_attemptStep s now s1 :
  view s1 = view s → user s1 = user s → activeQuiz s1 = activeQuiz s →
  questions s1 = questions s → submitted s1 = submitted s →
  answers s1 = answers s → result s1 = result s →
  attemptStep s (submitRef_current s now s1).1 (submitRef_current s now s1).2.
Proof.
  intros Hv Hu Hq Hqs Hsub Ha Hr.
  pose proof (handleSubmitQuiz_attemptStep s now s1 Hv Hu Hq Hqs Hsub Ha Hr) as H.
  unfold submitRef_current. by destruct (handleSubmitQuiz s now s1).
Qed.

Lemma handleNextQuestion_attemptStep r now s :
  attemptStep s (handleNextQuestion r now s).1 (handleNextQuestion r now s).2.
Proof.
  unfold handleNextQuestion. destruct (_ <? _).
  - unfold attemptStep. simpl. repeat split; try done. by left.
  - by apply submitRef_current_attemptStep.
Qed.

Lemma clickOption_attemptStep n s s' out :
  clickOption n s = Normal s' out → attemptStep s s' out.
Proof.
  assert (attemptStep s s []) as Hrefl.
  { unfold attemptStep. repeat split; try done. by left. }
  unfold clickOption.
  destruct (render s) as [| | | | | | | | |q btns|] eqn:Hr;
    try by intros [= <- <-].
  apply render_QuizScreen in Hr as (_ & _ & Hsub & _ & _).
  destruct (btns !! n) as [b|]; [|by intros [= <- <-]].
  destruct (btn_disabled b); [by intros [= <- <-]|].
  unfold handleOptionClick. destruct (feedback s); [by intros [= <- <-]|].
  destruct (questions s !! currentQIndex s); [|done].
  intros [= <- <-]. unfold attemptStep. simpl. rewrite Hsub.
  repeat split; try done. by left.
Qed.

Lemma globalTick_attemptStep now s :
  attemptStep s (globalTick now s).1 (globalTick now s).2.
Proof.
  assert (attemptStep s s []) as Hrefl.
  { unfold attemptStep. repeat split; try done. by left. }
  unfold globalTick. destruct (globalTimerRunning s); [|done].
  destruct (_ <=? _).
  - pose proof (submitRef_current_attemptStep s now s) as H.
    destruct (submitRef_current s now s) as [s1 out]. simpl in *.
    by apply H.
  - unfold attemptStep. simpl. repeat split; try done. by left.
Qed.

Lemma questionTick_attemptStep now s :
  attemptStep s (questionTick now s).1 (questionTick now s).2.
Proof.
  assert (attemptStep s s []) as Hrefl.
  { unfold attemptStep. repeat split; try done. by left. }
  unfold questionTick. destruct (questionTimerRunning s); [|done].
  destruct (_ <=? _).
  - pose proof (handleNextQuestion_attemptStep s now s) as H.
    destruct (handleNextQuestion s now s) as [s1 out]. exact H.
  - unfold attemptStep. simpl. repeat split; try done. by left.
Qed.

Lemma step_attemptStep e s :
  withinAttempt e = true → attemptStep s (step e s).1 (step e s).2.
Proof.
  destruct e as [to|u now quiz allQs|u| |now quiz allQs|n|r now|now|now];
    try discriminate; intros _; cbn [step].
  - destruct (clickOption n s) as [s' out|] eqn:Hclick; simpl.
    + by eapply clickOption_attemptStep.
    + unfold attemptStep. repeat split; try done. by left.
  - apply handleNextQuestion_attemptStep.
  - apply globalTick_attemptStep.
  - apply questionTick_attemptStep.
Qed.

Lemma run_cons e es s :
  run (e :: es) s
  = ((run es (step e s).1).1, (step e s).2 ++ (run es (step e s).1).2).
Proof.
  cbn [run]. destruct (step e s) as [s1 out1]. simpl.
  by destruct (run es s1) as [s2 out2].
Qed.

(** The same facts over a whole run. *)
Lemma run_attemptStep es s :
  Forall (λ e, withinAttempt e = true) es →
  attemptStep s (run es s).1 (run es s).2.
Proof.
  intros Hes. revert s. induction Hes as [|e es He _ IH]; intros s.
  { unfold attemptStep. simpl. repeat split; try done. by left. }
  rewrite run_cons. simpl.
  destruct (step_attemptStep e s He) as (Hv & Hu & Hq & Hqs & Hterm & Hrec).
  destruct (IH (step e s).1) as (Hv' & Hu' & Hq' & Hqs' & Hterm' & Hrec').
  unfold attemptStep. rewrite records_app, length_app.
  rewrite Hv', Hu', Hq', Hqs'. do 4 (split; [done|]). split.
  - intros Hs. destruct (Hterm Hs) as (Hs1 & Ha1 & Hr1 & Hout1).
    destruct (Hterm' Hs1) as (Hs2 & Ha2 & Hr2 & Hout2).
    rewrite Hout1, Hout2, Ha2, Hr2. done.
  - destruct Hrec as [[Hout1 Hs1]|(Hs0 & Hs1 & Hout1)].
    + rewrite Hout1. simpl. rewrite <- Hs1. exact Hrec'.
    + right. destruct (Hterm' Hs1) as (Hs2 & _ & _ & Hout2).
      rewrite Hout2, Hout1. simpl. done.
Qed.

End Attempt.

Section AttemptRuns.
Implicit Types (s r : State) (e : Event) (es : list Event).

Lemma clickOption_keeps_global_time n s s' out :
  clickOption n s = Normal s' out → globalTimeLeft s' = globalTimeLeft s.
Proof.
  unfold clickOption.
  destruct (render s) as [| | | | | | | | |q btns|]; try by intros [= <- _].
  destruct (btns !! n) as [b|]; [|by intros [= <- _]].
  destruct (btn_disabled b); [by intros [= <- _]|].
  unfold handleOptionClick. destruct (feedback s); [by intros [= <- _]|].
  destruct (questions s !! currentQIndex s); [|done]. by intros [= <- _].
Qed.

Lemma step_keeps_global_time e s :
  withinAttempt e = true → isGlobalTimerFired e = false →
  globalTimeLeft (step e s).1 = globalTimeLeft s.
Proof.
  destruct e as [to|u now quiz allQs|u| |now quiz allQs|n|r now|now|now];
    try discriminate; intros _ _; cbn [step].
  - destruct (clickOption n s) as [s' out|] eqn:Hclick; simpl; [|done].
    by eapply clickOption_keeps_global_time.
  - apply handleNextQuestion_resets.
  - unfold questionTick. destruct (questionTimerRunning s); [|done].
    destruct (_ <=? _); [|done].
    pose proof (handleNextQuestion_resets s now s) as (_ & _ & _ & _ & _ & _ & _ & Hg).
    by destruct (handleNextQuestion s now s).
Qed.

Lemma globalFirings_cons e es :
  globalFirings (e :: es)
  = ((if isGlobalTimerFired e then 1 else 0) + globalFirings es)%nat.
Proof.
  unfold globalFirings. rewrite filter_cons.
  destruct (isGlobalTimerFired e); by case_decide.
Qed.

Lemma isGlobalTimerFired_true e :
  isGlobalTimerFired e = true → ∃ now, e = GlobalTimerFired now.
Proof. destruct e; try discriminate. by eexists. Qed.

(** The countdown reaches the end of the attempt whatever else happens in
    between. *)
Lemma run_reaches_submitted es s :
  Forall (λ e, withinAttempt e = true) es →
  view s = STUDENT_LOBBY → is_Some (user s) → is_Some (activeQuiz s) →
  submitted s = true
  ∨ (0 < globalTimeLeft s ∧ globalTimeLeft s ≤ Z.of_nat (globalFirings es)) →
  submitted (run es s).1 = true.
Proof.
  intros Hes. revert s.
  induction Hes as [|e es He _ IH]; intros s Hv Hu Hq Hcase.
  { destruct Hcase as [?|[? Hle]]; [done|]. unfold globalFirings in Hle.
    simpl in Hle. lia. }
  rewrite run_cons. cbn [fst].
  destruct (step_attemptStep e s He) as (Hv1 & Hu1 & Hq1 & _ & Hterm & _).
  apply IH; [by rewrite Hv1 | by rewrite Hu1 | by rewrite Hq1 |].
  destruct Hcase as [Hs|[Hpos Hle]]; [left; by apply Hterm|].
  rewrite globalFirings_cons in Hle.
  destruct (submitted s) eqn:Hs; [left; by apply Hterm|].
  destruct (isGlobalTimerFired e) eqn:Hg.
  - apply isGlobalTimerFired_true in Hg as [now ->]. cbn [step].
    assert (globalTimerRunning s = true) as Hrun.
    { by apply globalTimerRunning_true. }
    destruct (decide (globalTimeLeft s ≤ 1)) as [H1|H1].
    + left. destruct (globalTick_expire now s Hrun H1) as (-> & _ & _).
      destruct Hu as [u Hu], Hq as [quiz Hquiz].
      by rewrite (handleSubmitQuiz_live s now s u quiz Hu Hquiz Hs).
    + right. rewrite globalTick_decrement by (done || lia). simpl. lia.
  - rewrite (step_keeps_global_time e s He Hg).
    destruct (submitted (step e s).1); [by left | right; lia].
Qed.

End AttemptRuns.

(** X2. The completed screen is final within the attempt: once the session
    is submitted, no interleaving of answer clicks, feedback delays and
    timer firings changes the submitted flag, the recorded answers, the
    result or what is rendered, and none of them stores anything. *)
Theorem submitted_attempt_is_frozen (es : list Event) (s : State) :
  Forall (λ e, withinAttempt e = true) es → submitted s = true →
  let res := run es s in
  submitted res.1 = true ∧ answers res.1 = answers s
  ∧ result res.1 = result s ∧ render res.1 = render s
  ∧ records res.2 = [].
Proof.
  intros Hes Hs. cbv zeta.
  destruct (run_attemptStep es s Hes) as (Hv & _ & Hq & Hqs & Hterm & _).
  destruct (Hterm Hs) as (Hs' & Ha & Hr & Hout).
  repeat split; try done.
  unfold render. by rewrite Hv, Hq, Hs', Hs, Hqs, Hr.
Qed.

Lemma submitted_attempt_is_frozen_witness :
  render
    (run [OptionClicked 0; FeedbackDelayElapsed sessionShowingFeedback 5;
          GlobalTimerFired 6] sessionCompleted).1
  = render sessionCompleted.
Proof.
  destruct (submitted_attempt_is_frozen
              [OptionClicked 0; FeedbackDelayElapsed sessionShowingFeedback 5;
               GlobalTimerFired 6] sessionCompleted)
    as (_ & _ & _ & Hrender & _); [by repeat constructor | reflexivity |].
  exact Hrender.
Defined.

(** X3. The attempt ends by the deadline.  For a logged-in participant in
    the lobby with an active quiz and [t > 0] seconds of global time, any
    run of answer clicks, feedback delays and timer firings in which the
    global timer fires at least [t] times ends submitted. *)
Theorem attempt_ends_by_deadline (es : list Event) (s : State) :
  Forall (λ e, withinAttempt e = true) es →
  view s = STUDENT_LOBBY → is_Some (user s) → is_Some (activeQuiz s) →
  0 < globalTimeLeft s → globalTimeLeft s ≤ Z.of_nat (globalFirings es) →
  submitted (run es s).1 = true.
Proof.
  intros Hes Hv Hu Hq Hpos Hle.
  apply run_reaches_submitted; try done. by right.
Qed.

Lemma attempt_ends_by_deadline_witness :
  submitted
    (run [OptionClicked 2; GlobalTimerFired 6] sessionAtLast).1 = true.
Proof.
  apply (attempt_ends_by_deadline
           [OptionClicked 2; GlobalTimerFired 6] sessionAtLast);
    [by repeat constructor | reflexivity | by eexists | by eexists
    | reflexivity | by vm_compute].
Defined.

(** ** Invariants of the session *)

Section Invariants.
Implicit Types (s r : State) (e : Event) (es : list Event).

(** What every step keeps, every reachable state has. *)
Lemma run_invariant (P : State → Prop) :
  (∀ e s, P s → P (step e s).1) → ∀ es s, P s → P (run es s).1.
Proof.
  intros Hstep es. induction es as [|e es IH]; intros s Hs; [done|].
  rewrite run_cons. apply IH, Hstep, Hs.
Qed.

Lemma reachable_invariant (P : State → Prop) :
  P initialState → (∀ e s, P s → P (step e s).1) → ∀ s, reachable s → P s.
Proof. intros Hinit Hstep s [es <-]. by apply run_invariant. Qed.

Lemma loadActiveQuiz_timersInRange now quiz allQs s :
  timersInRange s → timersInRange (loadActiveQuiz now quiz allQs s).
Proof.
  intros Hs. unfold loadActiveQuiz. destruct quiz as [q|]; [|done].
  destruct (publishedAt q) as [pa|]; [|done].
  case_bool_decide; [done|]. unfold timersInRange. simpl.
  split; [|lia]. destruct (0 <? _) eqn:Hlt; [|lia].
  apply Z.ltb_lt in Hlt. lia.
Qed.

Lemma clickOption_keeps_timers n s s' out :
  clickOption n s = Normal s' out →
  globalTimeLeft s' = globalTimeLeft s
  ∧ questionTimeLeft s' = questionTimeLeft s
  ∧ questions s' = questions s ∧ currentQIndex s' = currentQIndex s.
Proof.
  unfold clickOption.
  destruct (render s) as [| | | | | | | | |q btns|]; try by intros [= <- _].
  destruct (btns !! n) as [b|]; [|by intros [= <- _]].
  destruct (btn_disabled b); [by intros [= <- _]|].
  unfold handleOptionClick. destruct (feedback s); [by intros [= <- _]|].
  destruct (questions s !! currentQIndex s); [|done]. by intros [= <- _].
Qed.

Lemma clickLogout_keeps_timers s :
  globalTimeLeft (clickLogout s) = globalTimeLeft s
  ∧ questionTimeLeft (clickLogout s) = questionTimeLeft s
  ∧ questions (clickLogout s) = questions s
  ∧ currentQIndex (clickLogout s) = currentQIndex s.
Proof. unfold clickLogout. by destruct (render s). Qed.

Lemma step_timersInRange e s :
  timersInRange s → timersInRange (step e s).1.
Proof.
  intros Hs.
  destruct e as [to|u now quiz allQs|u| |now quiz allQs|n|r now|now|now];
    cbn [step].
  - unfold navigate. by destruct (navigates _ _).
  - case_bool_decide; [|done]. by apply loadActiveQuiz_timersInRange.
  - by case_bool_decide.
  - destruct (clickLogout_keeps_timers s) as (Hg & Hq & _).
    unfold timersInRange. simpl. by rewrite Hg, Hq.
  - simpl. unfold onQuizPublished. destruct (user s); [|done].
    case_bool_decide; [|done]. by apply loadActiveQuiz_timersInRange.
  - destruct (clickOption n s) as [s' out|] eqn:Hclick; simpl; [|done].
    apply clickOption_keeps_timers in Hclick as (Hg & Hq & _).
    unfold timersInRange. by rewrite Hg, Hq.
  - destruct (handleNextQuestion_resets r now s)
      as (_ & Hq & _ & _ & _ & _ & _ & Hg).
    unfold timersInRange. rewrite Hg, Hq. destruct Hs. lia.
  - unfold globalTick. destruct (globalTimerRunning s) eqn:Hrun; [|done].
    apply globalTimerRunning_true in Hrun as (_ & Hpos & _).
    destruct (_ <=? _) eqn:Hle.
    + unfold submitRef_current.
      pose proof (handleSubmitQuiz_frame s now s)
        as (_ & _ & _ & _ & _ & _ & _ & Hq & _).
      destruct (handleSubmitQuiz s now s) as [s1 out]. simpl in *.
      unfold timersInRange. simpl. rewrite Hq. destruct Hs. lia.
    + apply Z.leb_gt in Hle. unfold timersInRange. simpl. destruct Hs. lia.
  - unfold questionTick. destruct (questionTimerRunning s); [|done].
    destruct (_ <=? _) eqn:Hle.
    + pose proof (handleNextQuestion_resets s now s)
        as (_ & _ & _ & _ & _ & _ & _ & Hg).
      destruct (handleNextQuestion s now s) as [s1 out]. simpl in *.
      unfold timersInRange. simpl. rewrite Hg. destruct Hs. lia.
    + apply Z.leb_gt in Hle. unfold timersInRange. simpl. destruct Hs. lia.
Qed.

Lemma step_loggedInIffBehindLogin e s :
  loggedInIffBehindLogin s → loggedInIffBehindLogin (step e s).1.
Proof.
  unfold loggedInIffBehindLogin. intros Hs.
  destruct e as [to|u now quiz allQs|u| |now quiz allQs|n|r now|now|now];
    cbn [step].
  - unfold navigate. destruct (navigates (view s) to) eqn:Hnav; [|done].
    assert (¬ (view s = STUDENT_LOBBY ∨ view s = ADMIN_DASHBOARD)
            ∧ ¬ (to = STUDENT_LOBBY ∨ to = ADMIN_DASHBOARD)) as [Hfrom Hto].
    { destruct (view s), to; try discriminate Hnav;
        split; intros [?|?]; discriminate. }
    simpl. rewrite Hs. tauto.
  - case_bool_decide; [|done]. simpl. unfold handleStudentLogin.
    destruct (loadActiveQuiz_view_user now quiz allQs
                (setView STUDENT_LOBBY (setUser (Some u) s))) as [-> ->].
    simpl. split; [by left | by eexists].
  - case_bool_decide; [|done]. simpl. split; [by right | by eexists].
  - simpl. unfold clickLogout.
    destruct (render s); simpl; try done;
      (split; [by intros [? [=]] | by intros [[=]|[=]]]).
  - simpl. unfold onQuizPublished. destruct (user s) eqn:Hu; [|by rewrite Hu].
    case_bool_decide; [|by rewrite Hu].
    destruct (loadActiveQuiz_view_user now quiz allQs s) as [-> ->].
    by rewrite Hu.
  - destruct (clickOption n s) as [s' out|] eqn:Hclick; simpl; [|done].
    by apply clickOption_view_user in Hclick as [-> ->].
  - by destruct (handleNextQuestion_resets r now s)
      as (_ & _ & _ & _ & -> & -> & _).
  - by destruct (globalTick_view_user now s) as [-> ->].
  - by destruct (questionTick_view_user now s) as [-> ->].
Qed.

End Invariants.

(** X4. In every state the session can reach, whatever the instants of the
    events and whatever the backend answers, the global timer shows no
    negative time and the question timer shows between 1 and 60 seconds. *)
Theorem reachable_timers_in_range (s : State) :
  reachable s → 0 ≤ globalTimeLeft s ∧ 1 ≤ questionTimeLeft s ≤ 60.
Proof.
  apply (reachable_invariant timersInRange).
  - unfold timersInRange. simpl. lia.
  - apply step_timersInRange.
Qed.

Lemma reachable_timers_in_range_witness :
  0 ≤ globalTimeLeft twoQuestionSession
  ∧ 1 ≤ questionTimeLeft twoQuestionSession ≤ 60.
Proof.
  apply (reachable_timers_in_range twoQuestionSession).
  exists [Navigate STUDENT_LOGIN;
          StudentLoggedIn alice 1000000 (Some dailyQuiz) twoQuestions].
  reflexivity.
Defined.

(** X5. In every reachable state somebody is logged in exactly when the
    view is the student lobby or the admin dashboard: neither view is
    reached without a successful login, every logout leaves both, and so the
    quiz view is only ever shown to a logged-in participant. *)
Theorem reachable_logged_in_iff_behind_login (s : State) :
  reachable s →
  (is_Some (user s) ↔ (view s = STUDENT_LOBBY ∨ view s = ADMIN_DASHBOARD))
  ∧ (∀ q btns, render s = QuizScreen q btns → is_Some (user s)).
Proof.
  intros Hs.
  assert (loggedInIffBehindLogin s) as Hinv.
  { revert s Hs. apply reachable_invariant.
    - unfold loggedInIffBehindLogin. simpl.
      split; [by intros [? [=]] | by intros [[=]|[=]]].
    - apply step_loggedInIffBehindLogin. }
  split; [exact Hinv|].
  intros q btns (Hv & _)%render_QuizScreen. apply Hinv. by left.
Qed.

Lemma reachable_logged_in_iff_behind_login_witness :
  is_Some (user twoQuestionSession)
  ↔ (view twoQuestionSession = STUDENT_LOBBY
     ∨ view twoQuestionSession = ADMIN_DASHBOARD).
Proof.
  apply (reachable_logged_in_iff_behind_login twoQuestionSession).
  exists [Navigate STUDENT_LOGIN;
          StudentLoggedIn alice 1000000 (Some dailyQuiz) twoQuestions].
  reflexivity.
Defined.

(** ** The current question *)

Section CurrentQuestion.
Implicit Types (s r : State) (e : Event) (es : list Event).

Lemma indexInRange_frame s s' :
  questions s' = questions s → currentQIndex s' = currentQIndex s →
  indexInRange s → indexInRange s'.
Proof. unfold indexInRange. by intros -> ->. Qed.

Lemma loadActiveQuiz_indexInRange now quiz allQs s :
  match quiz with
  | Some q => ∃ pa, publishedAt q = Some pa ∧ pa ≠ 0
  | None => True
  end →
  indexInRange s → indexInRange (loadActiveQuiz now quiz allQs s).
Proof.
  destruct quiz as [q|]; [|done]. intros (pa & Hpa & Hne) _.
  rewrite (loadActiveQuiz_published now q allQs s pa Hpa Hne).
  unfold indexInRange. simpl.
  destruct (take 10 allQs); [by left | right; simpl; lia].
Qed.

Lemma handleNextQuestion_indexInRange r now s :
  currentQIndex r = currentQIndex s →
  length (questions r) = length (questions s) →
  indexInRange s → indexInRange (handleNextQuestion r now s).1.
Proof.
  intros Hi Hl Hs. unfold handleNextQuestion.
  destruct (_ <? _) eqn:Hlt.
  - apply Z.ltb_lt in Hlt. unfold indexInRange. simpl. right. lia.
  - unfold submitRef_current.
    pose proof (handleSubmitQuiz_frame s now
                  (setQuestionTimeLeft 60 (setFeedback None s)))
      as (_ & _ & _ & Hqs & Hidx & _).
    destruct (handleSubmitQuiz s now _) as [s1 out]. simpl in *.
    by apply (indexInRange_frame s).
Qed.

Lemma step_indexInRange e s :
  timelyEvent s e → indexInRange s → indexInRange (step e s).1.
Proof.
  intros He Hs.
  destruct e as [to|u now quiz allQs|u| |now quiz allQs|n|r now|now|now];
    cbn [step].
  - unfold navigate. by destruct (navigates _ _).
  - case_bool_decide; [|done]. simpl. unfold handleStudentLogin.
    apply loadActiveQuiz_indexInRange; [by destruct quiz | done].
  - by case_bool_decide.
  - destruct (clickLogout_keeps_timers s) as (_ & _ & Hq & Hi).
    by apply (indexInRange_frame s).
  - simpl. unfold onQuizPublished. destruct (user s); [|done].
    case_bool_decide; [|done].
    apply loadActiveQuiz_indexInRange; [by destruct quiz | done].
  - destruct (clickOption n s) as [s' out|] eqn:Hclick; simpl; [|done].
    apply clickOption_keeps_timers in Hclick as (_ & _ & Hq & Hi).
    by apply (indexInRange_frame s).
  - destruct He as [Hi Hl]. by apply handleNextQuestion_indexInRange.
  - unfold globalTick. destruct (globalTimerRunning s); [|done].
    destruct (_ <=? _); [|done]. unfold submitRef_current.
    pose proof (handleSubmitQuiz_frame s now s)
      as (_ & _ & _ & Hqs & Hidx & _).
    destruct (handleSubmitQuiz s now s) as [s1 out]. simpl in *.
    by apply (indexInRange_frame s).
  - unfold questionTick. destruct (questionTimerRunning s); [|done].
    destruct (_ <=? _); [|done].
    pose proof (handleNextQuestion_indexInRange s now s eq_refl eq_refl Hs) as H.
    destruct (handleNextQuestion s now s) as [s1 out]. exact H.
Qed.

Lemma run_indexInRange es s :
  timelyRun es s → indexInRange s → indexInRange (run es s).1.
Proof.
  revert s. induction es as [|e es IH]; intros s Hes Hs; [done|].
  destruct Hes as [He Hes]. rewrite run_cons.
  apply IH; [done|]. by apply step_indexInRange.
Qed.

End CurrentQuestion.

(** X6. The "Question not found" screen guards against what ordinary
    operation never produces.  From the initial state, along any run in
    which every delivered quiz carries a non-zero publish timestamp and
    every feedback delay ends on the question it was started on, the current
    index stays inside the question list (or the list is empty): the error
    screen is never rendered, and in the lobby with an active, unsubmitted
    quiz and a non-empty list the quiz view is. *)
Theorem timely_run_keeps_index_in_range (es : list Event) :
  timelyRun es initialState →
  let s := (run es initialState).1 in
  indexInRange s
  ∧ render s ≠ QuestionNotFound
  ∧ (view s = STUDENT_LOBBY → is_Some (activeQuiz s) → submitted s = false →
     questions s ≠ [] →
     ∃ q, questions s !! currentQIndex s = Some q
          ∧ render s = QuizScreen q (optionButtons s q)).
Proof.
  intros Hes. cbv zeta.
  assert (indexInRange (run es initialState).1) as Hin.
  { apply run_indexInRange; [done | by left]. }
  set (s := (run es initialState).1) in *.
  assert (questions s ≠ [] → is_Some (questions s !! currentQIndex s)) as Hq.
  { intros Hne. destruct Hin as [?|Hlt]; [done|]. by apply lookup_lt_is_Some. }
  split; [exact Hin|]. split.
  - unfold render. destruct (view s); try done.
    destruct (activeQuiz s); [|done]. destruct (submitted s); [done|].
    case_bool_decide as Hlen; [done|].
    destruct Hq as [cur ->]; [|done]. intros Hnil. apply Hlen. by rewrite Hnil.
  - intros Hv Ha Hsub Hne. destruct (Hq Hne) as [q Hcur].
    exists q. split; [done|]. by apply render_QuizScreen.
Qed.

Lemma timely_run_keeps_index_in_range_witness :
  render
    (run [Navigate STUDENT_LOGIN;
          StudentLoggedIn alice 1000000 (Some dailyQuiz) twoQuestions;
          QuizPublished 1001000 (Some dailyQuiz) tenQuestions;
          QuestionTimerFired 1002000] initialState).1
  ≠ QuestionNotFound.
Proof.
  destruct (timely_run_keeps_index_in_range
              [Navigate STUDENT_LOGIN;
               StudentLoggedIn alice 1000000 (Some dailyQuiz) twoQuestions;
               QuizPublished 1001000 (Some dailyQuiz) tenQuestions;
               QuestionTimerFired 1002000]) as (_ & Hrender & _).
  - cbn [timelyRun timelyEvent]. split; [done|].
    split; [by exists 1000000|]. split; [by exists 1000000|]. done.
  - exact Hrender.
Defined.

(** ** Clicking through *)

Section ClickingThrough.
Implicit Types (s r : State) (n : nat).

(** The click on an enabled answer button of the quiz view. *)
Lemma clickOption_on_quiz_view s n q opts o :
  view s = STUDENT_LOBBY → is_Some (activeQuiz s) → submitted s = false →
  feedback s = None → questions s !! currentQIndex s = Some q →
  question_options q = Some opts → opts !! n = Some o →
  clickOption n s
  = Normal
      (setFeedback
         (Some {| selectedId := option_id o;
                  isCorrect := bool_decide (option_id o = correctAnswer q) |})
         (setAnswers (<[question_id q := option_id o]> (answers s)) s))
      [SetTimeoutNextQuestion s 1000].
Proof.
  intros Hv Hq Hsub Hfb Hcur Hopts Ho. unfold clickOption.
  rewrite (proj2 (render_QuizScreen s q (optionButtons s q))) by done.
  rewrite (optionButtons_lookup s q opts n Hopts), Ho. simpl.
  rewrite Hfb, bool_decide_eq_false_2 by (by intros [? [=]]).
  by apply handleOptionClick_records.
Qed.

Lemma clickOption_Normal n s : ∃ s' out, clickOption n s = Normal s' out.
Proof.
  unfold clickOption.
  destruct (render s) as [| | | | | | | | |q btns|] eqn:Hr; try by eauto.
  apply render_QuizScreen in Hr as (_ & _ & _ & Hcur & _).
  destruct (btns !! n) as [b|]; [|by eauto].
  destruct (btn_disabled b); [by eauto|].
  unfold handleOptionClick. destruct (feedback s); [by eauto|].
  rewrite Hcur. by eauto.
Qed.

End ClickingThrough.

(** X7. A click on an answer button never raises.  [handleOptionClick] on
    its own throws a [TypeError] exactly when no feedback is set and
    [questions[currentQIndex]] is undefined; the render guards keep every
    click the screen can produce away from that case, in every state. *)
Theorem click_never_throws (n : nat) (s : State) :
  (∃ s' out, clickOption n s = Normal s' out)
  ∧ (step (OptionClicked n) s).1 = match clickOption n s with
                                   | Normal s' _ => s'
                                   | TypeError => s
                                   end
  ∧ ∀ questionId optionId,
      handleOptionClick s questionId optionId s = TypeError
      ↔ feedback s = None ∧ questions s !! currentQIndex s = None.
Proof.
  split; [apply clickOption_Normal|]. split.
  { cbn [step]. by destruct (clickOption n s). }
  intros questionId optionId. unfold handleOptionClick.
  destruct (feedback s) as [fb|]; [by split; [|intros [[=] _]]|].
  destruct (questions s !! currentQIndex s) as [q|];
    [by split; [|intros [_ [=]]] | done].
Qed.

(** X9. Answer, then wait out the feedback delay.  On the quiz view, a
    click on the [n]-th option followed by the end of its feedback delay
    leaves the chosen option recorded under the current question and the
    feedback cleared, with the question timer at 60.  Below the last index
    the next question is current and nothing is stored; on the last
    question the session of a logged-in participant is submitted and the one
    record stored holds the answer just given. *)
Theorem answer_then_advance
    (s : State) (n : nat) (now : Z) (q : Question) (opts : list QOption)
    (o : QOption) :
  view s = STUDENT_LOBBY → is_Some (activeQuiz s) → submitted s = false →
  feedback s = None → questions s !! currentQIndex s = Some q →
  question_options q = Some opts → opts !! n = Some o →
  let res := answerAndWait n now s in
  answers res.1 = <[question_id q := option_id o]> (answers s)
  ∧ feedback res.1 = None ∧ questionTimeLeft res.1 = 60
  ∧ (Z.of_nat (currentQIndex s) < Z.of_nat (length (questions s)) - 1 →
       currentQIndex res.1 = (currentQIndex s + 1)%nat
       ∧ submitted res.1 = false ∧ records res.2 = [])
  ∧ (¬ Z.of_nat (currentQIndex s) < Z.of_nat (length (questions s)) - 1 →
       is_Some (user s) →
       submitted res.1 = true
       ∧ ∃ sub, records res.2 = [sub]
                ∧ {| questionId := question_id q; value := option_id o |}
                  ∈ sub_answers sub
                ∧ result res.1 = Some (sub_score sub)).
Proof.
  intros Hv Hq Hsub Hfb Hcur Hopts Ho. cbv zeta.
  unfold answerAndWait. rewrite !run_cons. cbn [step run].
  rewrite (clickOption_on_quiz_view s n q opts o) by done.
  cbn [fst snd]. rewrite app_nil_r. set (s2 := setFeedback _ _).
  change ([SetTimeoutNextQuestion s 1000] ++ ?l)
    with (SetTimeoutNextQuestion s 1000 :: l).
  pose proof (handleNextQuestion_resets s now s2) as (Hf & Ht & Ha & _).
  destruct (handleNextQuestion s now s2) as [s3 out3] eqn:Hnext.
  cbn [fst snd] in *. cbn [records omap].
  split; [by rewrite Ha|]. split; [done|]. split; [done|]. split.
  - intros Hlt. rewrite handleNextQuestion_advance in Hnext by done.
    injection Hnext as <- <-. simpl. by rewrite Hsub.
  - intros Hge [u Hu]. destruct Hq as [quiz Hquiz].
    rewrite handleNextQuestion_finish in Hnext by done.
    unfold submitRef_current in Hnext.
    rewrite (handleSubmitQuiz_live s2 now _ u quiz) in Hnext by done.
    injection Hnext as <- <-. simpl. split; [done|].
    eexists. split; [reflexivity|]. simpl. split; [|done].
    apply elem_of_answerPairs. simpl. apply lookup_insert_eq.
Qed.

Lemma answer_then_advance_witness :
  currentQIndex (answerAndWait 3 5 sessionAtIndex3).1 = 4%nat
  ∧ submitted (answerAndWait 1 5 sessionAtLast).1 = true.
Proof.
  destruct (answer_then_advance sessionAtIndex3 3 5 (mkQuestion "q4" "d") abcd
              {| option_id := "d"; option_text := "fourth" |})
    as (_ & _ & _ & Hadv & _);
    [reflexivity | by eexists | reflexivity | reflexivity | reflexivity
    | reflexivity | reflexivity |].
  destruct (answer_then_advance sessionAtLast 1 5 (mkQuestion "q10" "b") abcd
              {| option_id := "b"; option_text := "second" |})
    as (_ & _ & _ & _ & Hlast);
    [reflexivity | by eexists | reflexivity | reflexivity | reflexivity
    | reflexivity | reflexivity |].
  split.
  - apply Hadv. by vm_compute.
  - apply Hlast; [by vm_compute | by eexists].
Defined.

(** ** Counting down *)

Section CountingDown.
Implicit Types (s : State) (now : Z) (nows : list Z).

Lemma setQuestionTimeLeft_same s : setQuestionTimeLeft (questionTimeLeft s) s = s.
Proof. by destruct s. Qed.

(** Before the budget is used up the firings only take seconds off. *)
Lemma questionTicks_countdown nows s :
  questionTimerRunning s = true →
  Z.of_nat (length nows) < questionTimeLeft s →
  run (QuestionTimerFired <$> nows) s
  = (setQuestionTimeLeft (questionTimeLeft s - Z.of_nat (length nows)) s, []).
Proof.
  revert s. induction nows as [|now nows IH]; intros s Hrun Hlt.
  { simpl. by rewrite Z.sub_0_r, setQuestionTimeLeft_same. }
  rewrite fmap_cons, run_cons. cbn [step]. cbn [length] in Hlt.
  rewrite questionTick_decrement by (done || lia). cbn [fst snd].
  rewrite IH; [|done|simpl; lia]. simpl.
  unfold setQuestionTimeLeft. simpl. do 2 f_equal. lia.
Qed.

Lemma run_app (es1 es2 : list Event) s :
  run (es1 ++ es2) s
  = ((run es2 (run es1 s).1).1, (run es1 s).2 ++ (run es2 (run es1 s).1).2).
Proof.
  revert s. induction es1 as [|e es1 IH]; intros s.
  { simpl. by destruct (run es2 s). }
  rewrite <- app_comm_cons, !run_cons, IH. simpl. by rewrite app_assoc.
Qed.

(** The remaining global time after any number of firings. *)
Lemma globalTicks_time nows s :
  0 ≤ globalTimeLeft s →
  globalTimeLeft s = 0
  ∨ (is_Some (activeQuiz s) ∧ submitted s = false ∧ view s = STUDENT_LOBBY) →
  globalTimeLeft (run (GlobalTimerFired <$> nows) s).1
  = Z.max 0 (globalTimeLeft s - Z.of_nat (length nows)).
Proof.
  revert s. induction nows as [|now nows IH]; intros s Hpos Hcase.
  { simpl. lia. }
  rewrite fmap_cons, run_cons. cbn [step fst length].
  destruct (decide (globalTimeLeft s = 0)) as [H0|H0].
  { rewrite globalTick_stopped.
    - cbn [fst]. rewrite IH; [lia | done | by left].
    - unfold globalTimerRunning. rewrite H0. simpl.
      by rewrite andb_false_r. }
  destruct Hcase as [?|(Hq & Hsub & Hv)]; [done|].
  assert (globalTimerRunning s = true) as Hrun.
  { apply globalTimerRunning_true. repeat split; try done. lia. }
  destruct (decide (globalTimeLeft s ≤ 1)) as [H1|H1].
  - destruct (globalTick_expire now s Hrun H1) as (Heq & _ & _).
    rewrite Heq. rewrite IH; simpl; [lia | done | by left].
  - rewrite globalTick_decrement by (done || lia). cbn [fst].
    rewrite IH; simpl; [lia | lia | right; done].
Qed.

End CountingDown.

(** X8. A question lasts exactly its budget.  While the question timer runs
    with [t] seconds left, fewer than [t] firings change nothing but the
    time shown, which drops by one per firing; the [t]-th firing refills the
    timer to 60 and, below the last index, moves on to the next question
    without storing anything. *)
Theorem question_lasts_its_budget (s : State) (nows : list Z) (now : Z) :
  questionTimerRunning s = true →
  (Z.of_nat (length nows) < questionTimeLeft s →
     run (QuestionTimerFired <$> nows) s
     = (setQuestionTimeLeft (questionTimeLeft s - Z.of_nat (length nows)) s, []))
  ∧ (Z.of_nat (length nows) + 1 = questionTimeLeft s →
     let res := run (QuestionTimerFired <$> (nows ++ [now])) s in
     questionTimeLeft res.1 = 60 ∧ answers res.1 = answers s
     ∧ feedback res.1 = None
     ∧ (Z.of_nat (currentQIndex s) < Z.of_nat (length (questions s)) - 1 →
          currentQIndex res.1 = (currentQIndex s + 1)%nat ∧ res.2 = [])).
Proof.
  intros Hrun. split; [by apply questionTicks_countdown|].
  intros Hlen. cbv zeta. rewrite fmap_app, run_app.
  rewrite (questionTicks_countdown nows s) by (done || lia).
  cbn [fst snd app].
  replace (questionTimeLeft s - Z.of_nat (length nows)) with 1 by lia.
  set (s1 := setQuestionTimeLeft 1 s).
  assert (questionTimerRunning s1 = true) as Hrun1 by done.
  simpl. rewrite (questionTick_expire now s1 Hrun1) by (simpl; lia).
  pose proof (handleNextQuestion_resets s1 now s1) as (Hf & _ & Ha & _).
  cbn [fst snd]. rewrite app_nil_r.
  split; [done|]. split; [done|]. split; [done|].
  intros Hlt. by rewrite handleNextQuestion_advance.
Qed.

Lemma question_lasts_its_budget_witness :
  run (QuestionTimerFired <$> seq_Z_times 59) sessionLastHalfMinute
  = (setQuestionTimeLeft 1 sessionLastHalfMinute, []).
Proof.
  destruct (question_lasts_its_budget sessionLastHalfMinute (seq_Z_times 59) 0)
    as [Hcount _]; [reflexivity|].
  apply Hcount. by vm_compute.
Defined.

(** X10. One deadline for everybody.  A participant who loads the quiz and
    then sees the global timer fire [k] times is shown the same remaining
    time as one who loads it [k] seconds later: the countdown and the
    derivation from the publish timestamp agree. *)
Theorem late_joiner_sees_same_countdown
    (s : State) (quiz : Quiz) (allQs : list Question) (now pa : Z)
    (nows : list Z) :
  view s = STUDENT_LOBBY → publishedAt quiz = Some pa → pa ≠ 0 →
  let early := loadActiveQuiz now (Some quiz) allQs s in
  let late :=
    loadActiveQuiz (now + 1000 * Z.of_nat (length nows)) (Some quiz) allQs s in
  globalTimeLeft (run (GlobalTimerFired <$> nows) early).1
  = globalTimeLeft late.
Proof.
  intros Hv Hpa Hne. cbv zeta.
  rewrite !(loadActiveQuiz_published _ quiz allQs s pa Hpa Hne).
  rewrite globalTicks_time; simpl.
  - unfold spec_initialRemaining.
    replace (now + 1000 * Z.of_nat (length nows) - pa)
      with (now - pa + Z.of_nat (length nows) * 1000) by lia.
    rewrite Z.div_add by lia. lia.
  - unfold spec_initialRemaining. lia.
  - right. repeat split; [by eexists | done].
Qed.

Lemma late_joiner_sees_same_countdown_witness :
  globalTimeLeft
    (run (GlobalTimerFired <$> [1; 2; 3])
       (loadActiveQuiz 1125000 (Some dailyQuiz) tenQuestions sessionAtIndex3)).1
  = globalTimeLeft
      (loadActiveQuiz 1128000 (Some dailyQuiz) tenQuestions
         sessionAtIndex3).
Proof.
  apply (late_joiner_sees_same_countdown sessionAtIndex3 dailyQuiz tenQuestions
           1125000 1000000 [1; 2; 3]); [reflexivity | reflexivity | discriminate].
Defined.

(** ** Logging in again *)

(** X11. Logging out from the completed screen and logging in again starts
    a fresh attempt at the quiz the backend hands out, also when it is the
    quiz just completed: the new session is in the lobby, not submitted, on
    index 0 with no answers, and finalizing it stores a further record for
    that quiz and that participant. *)
Theorem relogin_starts_a_new_attempt
    (s : State) (u : User) (quiz : Quiz) (allQs : list Question)
    (now now' pa : Z) :
  view s = STUDENT_LOBBY → is_Some (activeQuiz s) → submitted s = true →
  publishedAt quiz = Some pa → pa ≠ 0 →
  let s' :=
    (run [Logout; Navigate STUDENT_LOGIN;
          StudentLoggedIn u now (Some quiz) allQs] s).1 in
  view s' = STUDENT_LOBBY ∧ user s' = Some u ∧ activeQuiz s' = Some quiz
  ∧ submitted s' = false ∧ currentQIndex s' = 0%nat ∧ answers s' = ∅
  ∧ ∃ sub, records (submitRef_current s' now' s').2 = [sub]
           ∧ sub_quizId sub = quiz_id quiz ∧ sub_studentId sub = user_id u.
Proof.
  intros Hv [old Hold] Hsub Hpa Hne. cbv zeta.
  rewrite !run_cons. cbn [run step fst].
  assert (clickLogout s
          = setActiveQuiz None
              (setSubmitted false (setView LOGIN_SELECT (setUser None s))))
    as ->.
  { unfold clickLogout, render. by rewrite Hv, Hold, Hsub. }
  unfold navigate. cbn [view setActiveQuiz setSubmitted setView navigates].
  rewrite bool_decide_eq_true_2 by done. unfold handleStudentLogin.
  rewrite (loadActiveQuiz_published now quiz allQs _ pa Hpa Hne).
  cbn. do 6 (split; [done|]).
  eexists. split; [reflexivity|]. done.
Qed.

Lemma relogin_starts_a_new_attempt_witness :
  submitted
    (run [Logout; Navigate STUDENT_LOGIN;
          StudentLoggedIn alice 1700000 (Some dailyQuiz) tenQuestions]
       sessionCompleted).1 = false.
Proof.
  destruct (relogin_starts_a_new_attempt sessionCompleted alice dailyQuiz
              tenQuestions 1700000 1800000 1000000)
    as (_ & _ & _ & Hsub & _);
    [reflexivity | by eexists | reflexivity | reflexivity | discriminate |].
  exact Hsub.
Defined.

(** ** Publishing from the dashboard *)

(** X12. What the dashboard publishes is what the lobby loads.  For the
    quiz built by the "Publish Daily Quiz" button at a non-zero instant and
    the same question bank, the questions a participant loads carry exactly
    the identifiers the quiz lists, at most ten of them, and the initial
    global time is the quiz's own declared duration less the whole seconds
    since publication, clamped at 0.  The quiz identifier depends on the
    date alone. *)
Theorem published_daily_quiz_loads_consistently
    (isoDate localeDate : string) (published now : Z) (allQs : list Question)
    (s : State) :
  published ≠ 0 →
  let quiz := publishDailyQuiz isoDate localeDate published allQs in
  let s' := loadActiveQuiz now (Some quiz) allQs s in
  activeQuiz s' = Some quiz
  ∧ question_id <$> questions s' = questionIds quiz
  ∧ (length (questions s') ≤ 10)%nat
  ∧ globalTimeLeft s' = spec_initialRemaining (durationSeconds quiz) now published
  ∧ ∀ localeDate' published' allQs',
      quiz_id (publishDailyQuiz isoDate localeDate' published' allQs')
      = quiz_id quiz.
Proof.
  intros Hne. cbv zeta.
  rewrite (loadActiveQuiz_published now
             (publishDailyQuiz isoDate localeDate published allQs) allQs s
             published eq_refl Hne).
  simpl. repeat split. rewrite length_take. lia.
Qed.

Lemma published_daily_quiz_loads_consistently_witness :
  globalTimeLeft
    (loadActiveQuiz 1125000
       (Some (publishDailyQuiz "2026-01-01" "1/1/2026" 1000000 tenQuestions))
       tenQuestions initialState) = 475.
Proof.
  destruct (published_daily_quiz_loads_consistently "2026-01-01" "1/1/2026"
              1000000 1125000 tenQuestions initialState)
    as (_ & _ & _ & Htime & _); [discriminate|].
  rewrite Htime. reflexivity.
Defined.

(** ** The admin table *)

Section AdminTable.
Implicit Types (submissions : list Submission) (studentId : string).

Lemma score_text_not_dash (a b : string) : a +:+ "/" +:+ b ≠ "-".
Proof.
  destruct a as [|c a]; simpl; [discriminate|].
  intros [= _ Hrest]. by destruct a.
Qed.

Lemma find_submission_None submissions studentId :
  find (λ s, bool_decide (sub_studentId s = studentId)) submissions = None
  ↔ ∀ sub, sub ∈ submissions → sub_studentId sub ≠ studentId.
Proof.
  induction submissions as [|x l IH]; simpl.
  - split; [by intros _ sub ?%elem_of_nil | done].
  - case_bool_decide as Hx.
    + split; [done|]. intros Hall. destruct (Hall x); [left | done].
    + rewrite IH. split.
      * intros Hall sub [->|Hin]%elem_of_cons; [done | by apply Hall].
      * intros Hall sub Hin. apply Hall. by right.
Qed.

Lemma find_submission_first before sub after studentId :
  sub_studentId sub = studentId →
  (∀ b, b ∈ before → sub_studentId b ≠ studentId) →
  find (λ s, bool_decide (sub_studentId s = studentId))
    (before ++ sub :: after) = Some sub.
Proof.
  intros Hsub. induction before as [|x l IH]; intros Hbefore; simpl.
  - by rewrite bool_decide_eq_true_2.
  - rewrite bool_decide_eq_false_2 by (apply Hbefore; left).
    apply IH. intros b Hb. apply Hbefore. by right.
Qed.

End AdminTable.

(** X13. The result column of the admin table.  A student's cell shows "-"
    exactly when the loaded submissions hold none of that student;
    otherwise it shows score and question count, in decimal with a slash
    between them, of the first submission of that student in the list,
    whatever later ones say. *)
Theorem getStudentScore_shows_first_submission
    (submissions : list Submission) (studentId : string) :
  (getStudentScore submissions studentId = "-"
   ↔ ∀ sub, sub ∈ submissions → sub_studentId sub ≠ studentId)
  ∧ (∀ before sub after,
       submissions = before ++ sub :: after →
       sub_studentId sub = studentId →
       (∀ b, b ∈ before → sub_studentId b ≠ studentId) →
       getStudentScore submissions studentId
       = pretty (sub_score sub) +:+ "/" +:+ pretty (sub_totalQuestions sub)).
Proof.
  split.
  - rewrite <- find_submission_None. unfold getStudentScore.
    destruct (find _ submissions) as [sub|]; [|done].
    split; [|done]. intros Hdash. by apply score_text_not_dash in Hdash.
  - intros before sub after -> Hsub Hbefore. unfold getStudentScore.
    by rewrite find_submission_first.
Qed.

Lemma getStudentScore_shows_first_submission_witness :
  getStudentScore (records (submitRef_current sessionAtLast 7 sessionAtLast).2)
    "A01" = "2/10"
  ∧ getStudentScore (records (submitRef_current sessionAtLast 7 sessionAtLast).2)
      "B02" = "-".
Proof.
  split.
  - destruct (getStudentScore_shows_first_submission
                (records (submitRef_current sessionAtLast 7 sessionAtLast).2)
                "A01") as [_ Hfirst].
    rewrite (Hfirst []
               {| sub_quizId := "daily-quiz-2026-01-01"; sub_studentId := "A01";
                  sub_answers := answerPairs (answers sessionAtLast);
                  sub_score := 2; sub_totalQuestions := 10; submittedAt := 7 |}
               []); [reflexivity | by vm_compute | reflexivity |].
    by intros b ?%elem_of_nil.
  - apply (getStudentScore_shows_first_submission
             (records (submitRef_current sessionAtLast 7 sessionAtLast).2) "B02").
    intros sub [->|[]%elem_of_nil]%elem_of_cons. discriminate.
Defined.

(** ** What a submission holds *)

(** X14. The record handed to the store mirrors the session it was made
    from.  Whenever [handleSubmitQuiz] stores a record, a participant and a
    quiz were in place and the session was not yet submitted; the record
    names that quiz and that participant, holds one pair for every entry of
    the answer record and nothing else, with no question identifier twice,
    counts the loaded questions, carries the instant of the call, and its
    score is the result that goes on screen. *)
Theorem stored_record_mirrors_session
    (r s : State) (now : Z) (sub : Submission) :
  StoreSubmission sub ∈ (handleSubmitQuiz r now s).2 →
  (∃ u quiz, user r = Some u ∧ activeQuiz r = Some quiz
             ∧ sub_studentId sub = user_id u ∧ sub_quizId sub = quiz_id quiz)
  ∧ submitted r = false
  ∧ (∀ a, a ∈ sub_answers sub ↔ answers r !! questionId a = Some (value a))
  ∧ NoDup (questionId <$> sub_answers sub)
  ∧ length (sub_answers sub) = size (answers r)
  ∧ sub_totalQuestions sub = length (questions r)
  ∧ submittedAt sub = now
  ∧ result (handleSubmitQuiz r now s).1 = Some (sub_score sub)
  ∧ submitted (handleSubmitQuiz r now s).1 = true.
Proof.
  unfold handleSubmitQuiz.
  destruct (user r) as [u|], (activeQuiz r) as [quiz|], (submitted r); simpl;
    try by intros ?%elem_of_nil.
  intros [= ->]%list_elem_of_singleton. simpl.
  split; [by exists u, quiz|]. split; [done|].
  split; [apply elem_of_answerPairs|]. split; [apply answerPairs_NoDup|].
  split; [|done]. unfold answerPairs.
  by rewrite length_fmap, length_map_to_list.
Qed.

Lemma stored_record_mirrors_session_witness :
  ∃ sub, StoreSubmission sub ∈ (handleSubmitQuiz sessionAtLast 7 sessionAtLast).2
         ∧ length (sub_answers sub) = 3%nat
         ∧ sub_totalQuestions sub = 10%nat.
Proof.
  eexists. split; [by apply list_elem_of_singleton|].
  edestruct (stored_record_mirrors_session sessionAtLast sessionAtLast 7)
    as (_ & _ & _ & _ & Hlen & Htotal & _);
    [by apply list_elem_of_singleton|].
  split; [rewrite Hlen; by vm_compute | exact Htotal].
Defined.

(** ** Answers on offer *)

Section AnswersOnOffer.
Implicit Types (s r : State) (e : Event) (es : list Event).

Lemma answersOnOffer_frame s s' :
  answers s' = answers s → questions s' = questions s →
  answersOnOffer s → answersOnOffer s'.
Proof. unfold answersOnOffer. by intros -> ->. Qed.

(** A click changes nothing or records an option of the current question
    under that question's identifier. *)
Lemma clickOption_inv n s s' out :
  clickOption n s = Normal s' out →
  s' = s
  ∨ ∃ q opts o,
      questions s !! currentQIndex s = Some q
      ∧ question_options q = Some opts ∧ opts !! n = Some o
      ∧ questions s' = questions s
      ∧ answers s' = <[question_id q := option_id o]> (answers s).
Proof.
  unfold clickOption.
  destruct (render s) as [| | | | | | | | |q btns|] eqn:Hr;
    try by intros [= <- _]; left.
  apply render_QuizScreen in Hr as (_ & _ & _ & Hcur & ->).
  destruct (optionButtons s q !! n) as [b|] eqn:Hb;
    [|intros [= <- _]; by left].
  destruct (btn_disabled b); [intros [= <- _]; by left|].
  unfold optionButtons in Hb.
  destruct (question_options q) as [opts|] eqn:Hopts; [|done].
  rewrite list_lookup_fmap in Hb.
  destruct (opts !! n) as [o|] eqn:Ho; [|done].
  injection Hb as <-. simpl.
  unfold handleOptionClick. destruct (feedback s); [intros [= <- _]; by left|].
  rewrite Hcur. intros [= <- _]. right. by exists q, opts, o.
Qed.

Lemma clickLogout_keeps_answers s : answers (clickLogout s) = answers s.
Proof. unfold clickLogout. by destruct (render s). Qed.

Lemma loadActiveQuiz_answersOnOffer now quiz allQs s :
  match quiz with
  | Some q => ∃ pa, publishedAt q = Some pa ∧ pa ≠ 0
  | None => True
  end →
  answersOnOffer s → answersOnOffer (loadActiveQuiz now quiz allQs s).
Proof.
  destruct quiz as [q|]; [|done]. intros (pa & Hpa & Hne) _.
  rewrite (loadActiveQuiz_published now q allQs s pa Hpa Hne).
  unfold answersOnOffer. simpl. intros qid v Hqid.
  by rewrite lookup_empty in Hqid.
Qed.

Lemma step_answersOnOffer e s :
  timelyEvent s e → answersOnOffer s → answersOnOffer (step e s).1.
Proof.
  intros He Hs.
  destruct e as [to|u now quiz allQs|u| |now quiz allQs|n|r now|now|now];
    cbn [step].
  - unfold navigate. by destruct (navigates _ _).
  - case_bool_decide; [|done]. simpl. unfold handleStudentLogin.
    apply loadActiveQuiz_answersOnOffer; [by destruct quiz | done].
  - by case_bool_decide.
  - destruct (clickLogout_keeps_timers s) as (_ & _ & Hq & _).
    apply (answersOnOffer_frame s); [apply clickLogout_keeps_answers | done..].
  - simpl. unfold onQuizPublished. destruct (user s); [|done].
    case_bool_decide; [|done].
    apply loadActiveQuiz_answersOnOffer; [by destruct quiz | done].
  - destruct (clickOption n s) as [s' out|] eqn:Hclick; simpl; [|done].
    apply clickOption_inv in Hclick
      as [->|(q & opts & o & Hcur & Hopts & Ho & Hqs & Ha)]; [done|].
    unfold answersOnOffer. rewrite Hqs, Ha. intros qid v Hqid.
    destruct (decide (question_id q = qid)) as [<-|Hneq].
    + rewrite lookup_insert_eq in Hqid. injection Hqid as <-.
      exists q, opts, o. repeat split; try done.
      * by eapply list_elem_of_lookup_2.
      * by eapply list_elem_of_lookup_2.
    + rewrite lookup_insert_ne in Hqid by done. by apply Hs.
  - destruct (handleNextQuestion_resets r now s) as (_ & _ & Ha & Hq & _).
    by apply (answersOnOffer_frame s).
  - unfold globalTick. destruct (globalTimerRunning s); [|done].
    destruct (_ <=? _); [|done]. unfold submitRef_current.
    pose proof (handleSubmitQuiz_frame s now s)
      as (_ & _ & _ & Hqs & _ & Ha & _).
    destruct (handleSubmitQuiz s now s) as [s1 out]. simpl in *.
    by apply (answersOnOffer_frame s).
  - unfold questionTick. destruct (questionTimerRunning s); [|done].
    destruct (_ <=? _); [|done].
    pose proof (handleNextQuestion_resets s now s) as (_ & _ & Ha & Hq & _).
    destruct (handleNextQuestion s now s) as [s1 out]. simpl in *.
    by apply (answersOnOffer_frame s).
Qed.

Lemma run_answersOnOffer es s :
  timelyRun es s → answersOnOffer s → answersOnOffer (run es s).1.
Proof.
  revert s. induction es as [|e es IH]; intros s Hes Hs; [done|].
  destruct Hes as [He Hes]. rewrite run_cons.
  apply IH; [done|]. by apply step_answersOnOffer.
Qed.

Lemma size_list_to_set_le (l : list string) :
  (size (list_to_set l : gset string) ≤ length l)%nat.
Proof.
  induction l as [|x l IH].
  { rewrite list_to_set_nil, size_empty. done. }
  rewrite list_to_set_cons, size_union_alt, size_singleton. simpl.
  assert (size (list_to_set l ∖ {[x]} : gset string)
          ≤ size (list_to_set l : gset string))%nat.
  { apply subseteq_size. by intros y [Hy _]%elem_of_difference. }
  lia.
Qed.

End AnswersOnOffer.

(** X15. Through the screen only offered answers get recorded.  From the
    initial state, along any run in which every delivered quiz carries a
    non-zero publish timestamp and every feedback delay ends on the question
    it was started on, every entry of the answer record belongs to
    a question of the loaded list and holds the identifier of one of that
    question's options; so the record never has more entries than there are
    questions, and neither has a submission made from it. *)
Theorem recorded_answers_are_on_offer (es : list Event) :
  timelyRun es initialState →
  let s := (run es initialState).1 in
  (∀ qid v, answers s !! qid = Some v →
     ∃ q opts o, q ∈ questions s ∧ question_id q = qid
                 ∧ question_options q = Some opts
                 ∧ o ∈ opts ∧ option_id o = v)
  ∧ (size (answers s) ≤ length (questions s))%nat
  ∧ (length (answerPairs (answers s)) ≤ length (questions s))%nat.
Proof.
  intros Hes. cbv zeta.
  assert (answersOnOffer (run es initialState).1) as Hoffer.
  { apply run_answersOnOffer; [done|]. intros qid v Hqid.
    simpl in Hqid. by rewrite lookup_empty in Hqid. }
  set (s := (run es initialState).1) in *.
  assert (size (answers s) ≤ length (questions s))%nat as Hsize.
  { rewrite <- size_dom, <- (length_fmap question_id (questions s)).
    etrans; [|apply size_list_to_set_le]. apply subseteq_size.
    intros qid [v Hv]%elem_of_dom.
    destruct (Hoffer qid v Hv) as (q & _ & _ & Hq & <- & _).
    apply elem_of_list_to_set. by apply list_elem_of_fmap_2. }
  split; [exact Hoffer|]. split; [exact Hsize|].
  unfold answerPairs. by rewrite length_fmap, length_map_to_list.
Qed.

Lemma recorded_answers_are_on_offer_witness :
  (size (answers
     (run [Navigate STUDENT_LOGIN;
           StudentLoggedIn alice 1000000 (Some dailyQuiz) twoQuestions;
           OptionClicked 1] initialState).1) ≤ 2)%nat.
Proof.
  destruct (recorded_answers_are_on_offer
              [Navigate STUDENT_LOGIN;
               StudentLoggedIn alice 1000000 (Some dailyQuiz) twoQuestions;
               OptionClicked 1]) as (_ & Hsize & _).
  - cbn [timelyRun timelyEvent]. split; [done|].
    split; [by exists 1000000|]. done.
  - etrans; [exact Hsize|]. by vm_compute.
Defined.

(** ** A reload during the feedback delay *)

(** X16. The feedback delay outlives a reload.  When a participant answers
    a question that is not the last one and the quiz is published again
    before the one-second delay is over, the pending advance still runs: it
    decides on the index of the render it was created in and increments the
    index of the restarted session.  The restarted attempt therefore stands
    on its second question (index 1) with no answer recorded for its
    first. *)
Theorem republish_during_feedback_skips_a_question
    (s : State) (n : nat) (q : Question) (opts : list QOption) (o : QOption)
    (u : User) (quiz : Quiz) (allQs : list Question) (now now' pa : Z) :
  view s = STUDENT_LOBBY → is_Some (activeQuiz s) → submitted s = false →
  feedback s = None → questions s !! currentQIndex s = Some q →
  question_options q = Some opts → opts !! n = Some o →
  user s = Some u → user_role u = STUDENT →
  publishedAt quiz = Some pa → pa ≠ 0 →
  Z.of_nat (currentQIndex s) < Z.of_nat (length (questions s)) - 1 →
  let res :=
    run [OptionClicked n; QuizPublished now (Some quiz) allQs;
         FeedbackDelayElapsed s now'] s in
  currentQIndex res.1 = 1%nat ∧ answers res.1 = ∅
  ∧ questions res.1 = take 10 allQs ∧ activeQuiz res.1 = Some quiz
  ∧ feedback res.1 = None ∧ questionTimeLeft res.1 = 60
  ∧ submitted res.1 = false ∧ records res.2 = [].
Proof.
  intros Hv Hq Hsub Hfb Hcur Hopts Ho Hu Hrole Hpa Hne Hlt. cbv zeta.
  set (clicked :=
         setFeedback
           (Some {| selectedId := option_id o;
                    isCorrect := bool_decide (option_id o = correctAnswer q) |})
           (setAnswers (<[question_id q := option_id o]> (answers s)) s)).
  assert (run [OptionClicked n; QuizPublished now (Some quiz) allQs;
               FeedbackDelayElapsed s now'] s
          = (setCurrentQIndex 1
               (setQuestionTimeLeft 60
                  (setFeedback None
                     (loadActiveQuiz now (Some quiz) allQs clicked))),
             [SetTimeoutNextQuestion s 1000])) as ->.
  { rewrite !run_cons. cbn [step run].
    rewrite (clickOption_on_quiz_view s n q opts o) by done.
    cbn [fst snd]. fold clicked.
    assert (onQuizPublished now (Some quiz) allQs clicked
            = loadActiveQuiz now (Some quiz) allQs clicked) as ->.
    { unfold onQuizPublished. simpl. by rewrite Hu, bool_decide_eq_true_2. }
    rewrite handleNextQuestion_advance by done.
    rewrite (loadActiveQuiz_published now quiz allQs clicked pa Hpa Hne).
    reflexivity. }
  rewrite (loadActiveQuiz_published now quiz allQs clicked pa Hpa Hne).
  done.
Qed.

Lemma republish_during_feedback_skips_a_question_witness :
  currentQIndex
    (run [OptionClicked 3; QuizPublished 1200000 (Some dailyQuiz) tenQuestions;
          FeedbackDelayElapsed sessionAtIndex3 1200500] sessionAtIndex3).1
  = 1%nat.
Proof.
  destruct (republish_during_feedback_skips_a_question sessionAtIndex3 3
              (mkQuestion "q4" "d") abcd
              {| option_id := "d"; option_text := "fourth" |}
              alice dailyQuiz tenQuestions 1200000 1200500 1000000)
    as (Hidx & _);
    [reflexivity | by eexists | reflexivity | reflexivity | reflexivity
    | reflexivity | reflexivity | reflexivity | reflexivity | reflexivity
    | discriminate | by vm_compute |].
  exact Hidx.
Defined.

(** ** Callbacks that come due together *)

Section CommitWindows.
Implicit Types (cur s r : State) (e : Event) (es : list Event).

Lemma signals_app (out1 out2 : list Effect) :
  signals (out1 ++ out2) = (signals out1 + signals out2)%nat.
Proof. unfold signals. by rewrite filter_app, length_app. Qed.

(** What one run of [submitRef.current] stores depends on the committed
    render alone. *)
Lemma submitRef_current_count cur now s :
  signals (submitRef_current cur now s).2 = 1%nat
  ∧ length (records (submitRef_current cur now s).2)
    = (if passesSubmitGuard cur then 1 else 0)%nat
  ∧ (submitted s = true ∨ passesSubmitGuard cur = true →
     submitted (submitRef_current cur now s).1 = true).
Proof.
  unfold passesSubmitGuard, submitRef_current, handleSubmitQuiz.
  destruct (user cur) as [u|], (activeQuiz cur) as [quiz|], (submitted cur);
    simpl; repeat split; try done; by intros [?|?].
Qed.

Lemma windowStep_refl cur s : windowStep cur s s [].
Proof. unfold windowStep. simpl. by destruct (passesSubmitGuard cur). Qed.

Lemma submitRef_current_windowStep cur now s s1 :
  (submitted s = true → submitted s1 = true) →
  windowStep cur s (submitRef_current cur now s1).1
    (submitRef_current cur now s1).2.
Proof.
  intros Hs. destruct (submitRef_current_count cur now s1) as (Hsig & Hrec & Hsub).
  unfold windowStep. rewrite Hrec, Hsig. split; [done|]. split.
  - intros Htrue. apply Hsub. left. by apply Hs.
  - intros Hne. apply Hsub. right.
    destruct (passesSubmitGuard cur); [done|].
    by destruct (records (submitRef_current cur now s1).2).
Qed.

Lemma handleNextQuestionIn_windowStep r cur now s :
  windowStep cur s (handleNextQuestionIn r cur now s).1
    (handleNextQuestionIn r cur now s).2.
Proof.
  unfold handleNextQuestionIn. destruct (_ <? _).
  - unfold windowStep. simpl. by destruct (passesSubmitGuard cur).
  - by apply submitRef_current_windowStep.
Qed.

Lemma fireIn_windowStep cur e s :
  windowStep cur s (fireIn cur e s).1 (fireIn cur e s).2.
Proof.
  destruct e as [to|u now quiz allQs|u| |now quiz allQs|n|r now|now|now];
    cbn [fireIn]; try apply windowStep_refl.
  - apply handleNextQuestionIn_windowStep.
  - destruct (globalTimerRunning cur); [|apply windowStep_refl].
    destruct (_ <=? _).
    + pose proof (submitRef_current_windowStep cur now s s (λ H, H)) as H.
      destruct (submitRef_current cur now s) as [s1 out]. exact H.
    + unfold windowStep. simpl. by destruct (passesSubmitGuard cur).
  - destruct (questionTimerRunning cur); [|apply windowStep_refl].
    destruct (_ <=? _).
    + pose proof (handleNextQuestionIn_windowStep cur cur now s) as H.
      destruct (handleNextQuestionIn cur cur now s) as [s1 out]. exact H.
    + unfold windowStep. simpl. by destruct (passesSubmitGuard cur).
Qed.

Lemma fireAll_cons cur e es s :
  fireAll cur (e :: es) s
  = ((fireAll cur es (fireIn cur e s).1).1,
     (fireIn cur e s).2 ++ (fireAll cur es (fireIn cur e s).1).2).
Proof.
  cbn [fireAll]. destruct (fireIn cur e s) as [s1 out1]. simpl.
  by destruct (fireAll cur es s1).
Qed.

Lemma fireAll_windowStep cur es s :
  windowStep cur s (fireAll cur es s).1 (fireAll cur es s).2.
Proof.
  revert s. induction es as [|e es IH]; intros s; [apply windowStep_refl|].
  rewrite fireAll_cons. cbn [fst snd].
  destruct (fireIn_windowStep cur e s) as (Hrec1 & Hmono1 & Hsub1).
  destruct (IH (fireIn cur e s).1) as (Hrec2 & Hmono2 & Hsub2).
  unfold windowStep. rewrite records_app, length_app, signals_app, Hrec1, Hrec2.
  split; [by destruct (passesSubmitGuard cur)|]. split; [by auto|].
  intros Hne. destruct (records (fireIn cur e s).2) eqn:Hout1.
  - apply Hsub2. by rewrite app_nil_l in Hne.
  - apply Hmono2, Hsub1. by rewrite ?Hout1.
Qed.

Lemma runWindows_cons (es : list Event) (ws : list (list Event)) s :
  runWindows (es :: ws) s
  = ((runWindows ws (commitWindow es s).1).1,
     (commitWindow es s).2 ++ (runWindows ws (commitWindow es s).1).2).
Proof.
  cbn [runWindows]. destruct (commitWindow es s) as [s1 out1]. simpl.
  by destruct (runWindows ws s1).
Qed.

(** After a commit with [submitted] set no window stores anything. *)
Lemma runWindows_submitted (ws : list (list Event)) s :
  submitted s = true →
  records (runWindows ws s).2 = [] ∧ submitted (runWindows ws s).1 = true.
Proof.
  revert s. induction ws as [|es ws IH]; intros s Hs; [done|].
  rewrite runWindows_cons. cbn [fst snd].
  destruct (fireAll_windowStep s es s) as (Hrec & Hmono & _).
  fold (commitWindow es s) in Hrec, Hmono.
  assert (passesSubmitGuard s = false) as Hguard.
  { unfold passesSubmitGuard. rewrite Hs. by rewrite andb_false_r. }
  rewrite Hguard in Hrec. apply length_zero_iff_nil in Hrec.
  destruct (IH (commitWindow es s).1 (Hmono Hs)) as [Hrec' Hsub'].
  by rewrite records_app, Hrec, Hrec'.
Qed.

(** A window of one callback is the step of the transition system. *)
Lemma commitWindow_single e s :
  isTimerCallback e = true → commitWindow [e] s = step e s.
Proof.
  destruct e; try discriminate; intros _;
    unfold commitWindow; cbn [fireAll fireIn step].
  - change (handleNextQuestionIn r s now s) with (handleNextQuestion r now s).
    destruct (handleNextQuestion r now s). by rewrite app_nil_r.
  - fold (globalTick now s). destruct (globalTick now s). by rewrite app_nil_r.
  - change (handleNextQuestionIn s s now s) with (handleNextQuestion s now s).
    fold (questionTick now s). destruct (questionTick now s).
    by rewrite app_nil_r.
Qed.

End CommitWindows.

(** X1. Timer callbacks that come due together, with no commit in between,
    all meet the guard of [handleSubmitQuiz] on the same render.  A window
    of such callbacks stores exactly one record per call of
    [submitRef.current()] when the committed render has a participant, an
    active quiz and [submitted = false], and none otherwise; whenever it
    stores any, the state it commits has [submitted] set, and no later
    window stores anything. *)
Theorem commit_window_stores_one_record_per_signal
    (es : list Event) (ws : list (list Event)) (cur : State) :
  Forall (λ e, isTimerCallback e = true) es →
  Forall (Forall (λ e, isTimerCallback e = true)) ws →
  let res := commitWindow es cur in
  length (records res.2)
  = (if passesSubmitGuard cur then signals res.2 else 0)%nat
  ∧ (records res.2 ≠ [] →
       submitted res.1 = true ∧ records (runWindows ws res.1).2 = []).
Proof.
  intros _ _. cbv zeta.
  destruct (fireAll_windowStep cur es cur) as (Hrec & _ & Hsub).
  fold (commitWindow es cur) in Hrec, Hsub.
  split; [exact Hrec|]. intros Hne. split; [by apply Hsub|].
  by apply runWindows_submitted, Hsub.
Qed.

Lemma commit_window_stores_one_record_per_signal_witness :
  length (records
    (commitWindow [GlobalTimerFired 7; QuestionTimerFired 8] sessionAtLast).2)
  = 2%nat
  ∧ records
      (runWindows [[GlobalTimerFired 9]; [QuestionTimerFired 10]]
         (commitWindow [GlobalTimerFired 7; QuestionTimerFired 8]
            sessionAtLast).1).2 = [].
Proof.
  destruct (commit_window_stores_one_record_per_signal
              [GlobalTimerFired 7; QuestionTimerFired 8]
              [[GlobalTimerFired 9]; [QuestionTimerFired 10]] sessionAtLast)
    as (Hcount & Hlater); [by repeat constructor | by repeat constructor |].
  split.
  - rewrite Hcount. by vm_compute.
  - apply Hlater. by vm_compute.
Defined.
